(** * MarkBind command layer ([index.js]): a shallow embedding

    The entry file wires the command-line commands ([include], [render],
    [serve], ...) to collaborators that live outside it: the [Site] builder,
    the fragment engine ([MarkBind] parser), [fsUtil], the logger, and the
    third-party packages find-up, cheerio, chokidar and live-server.

    The embedding keeps the shape of the file:
    - every collaborator is a field of one environment record [Env]; the
      theorems quantify over all environments;
    - everything the file does to the outside world (log lines, collaborator
      calls, file writes) is appended to a chronological trace of [Effect]s;
    - a synchronous [throw] and a rejected promise are both a [Rejected]
      outcome of a computation [M A]; [.then] is the bind of that monad and
      [.catch] its handler; a promise chain nobody waits for is [detach]ed.

    JavaScript strings are modelled by [string], a character standing for one
    code unit below 256. *)

From Stdlib Require Import Ascii String DecimalString DecimalN.
From stdpp Require Import gmap strings list.

Local Open Scope string_scope.
Local Open Scope list_scope.

(** ** JavaScript values used by the file *)

(** An [Error] object: the file only ever reads [.message]. *)
Record Error := mkError { name : string; message : string }.

Definition TypeError (msg : string) : Error := mkError "TypeError" msg.

(** The result of evaluating an expression or settling a promise. *)
Inductive Outcome (A : Type) :=
| Fulfilled (a : A)
| Rejected (e : Error).
Arguments Fulfilled {A} a.
Arguments Rejected {A} e.

(** [o[k] = v] on a plain object literal, for a value [v] that is not an
    object: the key is created or overwritten, except for [__proto__], whose
    inherited setter ignores primitive values and creates no own property. *)
Definition js_set {V} (o : gmap string V) (k : string) (v : V) : gmap string V :=
  if decide (k = "__proto__") then o else <[k := v]> o.
Arguments js_set : simpl never.

(** Property-key coercion of the result of [.attr('id')], which is
    [undefined] when the attribute is missing. *)
Definition property_key (id : option string) : string :=
  match id with
  | Some s => s
  | None => "undefined"
  end.

(** [x || y] on an optional string: [undefined] and the empty string are falsy. *)
Definition js_or (x : option string) (y : string) : string :=
  match x with
  | Some s => if decide (s = "") then y else s
  | None => y
  end.

Definition truthy (x : option string) : option string :=
  match x with
  | Some s => if decide (s = "") then None else Some s
  | None => None
  end.

(** ** Paths

    Paths produced by [path.resolve], [path.join] and [path.dirname] are
    absolute and normalised; they are kept as their list of segments, root
    first. [path_text] is the POSIX text of such a path. *)
Definition Path := list string.

Definition path_text (p : Path) : string :=
  match p with
  | [] => "/"
  | _ => foldr (fun seg acc => "/" +:+ seg +:+ acc) "" p
  end.

(** [path.join(dir, name)] and [path.resolve(dir, rel)] for a relative path
    given by its segments. *)
Definition path_join (dir : Path) (rel : list string) : Path := dir ++ rel.

Definition SITE_CONFIG_NAME : string := "site.json".
Definition USER_VARIABLES_PATH : list string := ["_markbind"; "variables.md"].

(** ** Data handed to the collaborators *)

(** A top-level element of the variables file as the loop sees it:
    [$(this).attr('id')] and [$(this).html()]. *)
Record Element := mkElement { attr_id : option string; html : string }.

#[global] Instance Element_eq_dec : EqDecision Element.
Proof. solve_decision. Defined.

(** The [config] object literal; a property that was never assigned is [None]. *)
Record ProjectConfig := mkConfig {
  rootPath : Path;
  baseUrlMap : gmap string bool;
  userDefinedVariablesMap : option (gmap string (gmap string string))
}.

Record SiteConfig := mkSiteConfig { baseUrl : option string }.

Inductive Port :=
| PortOption (s : string)
| PortNumber (n : N).

Record ServerConfig := mkServerConfig {
  open : bool;
  logLevel : N;
  root : Path;
  port : Port;
  mount : list (string * Path)
}.

Inductive BuilderOp := rebuildAffectedSourceFiles | buildAsset | removeAsset.

Inductive EventKind := add | change | unlink.

Record WatchEvent := mkEvent { kind : EventKind; path : string }.

(** Calls that return a promise: their start and their settling are two
    separate moments. *)
Inductive Call :=
| CReadSiteConfig
| CGenerate
| CBuilder (op : BuilderOp) (filePath : string)
| CIncludeFile (file : Path) (config : ProjectConfig)
| CRenderFile (file : Path) (config : ProjectConfig).

Inductive Effect :=
| Logo
| LogInfo (msg : string)
| LogWarn (msg : string)
| LogError (msg : string)
| LogPlain (msg : string)
| FsRead (file : Path)
| FsOutput (file : Path) (data : string)
| Classify (filePath : string)
| Began (c : Call)
| Ended (c : Call) (ok : bool)
| WatchInstall (rootFolder : Path) (ignoredFolder : Path) (ignoreInitial : bool)
| ServerStart (config : ServerConfig)
| Unhandled (e : Error).

(** ** The environment: every collaborator of the file

    Collaborators that are called once per command answer by a plain
    function; the builder, called once per watch event, may answer
    differently each time and reads the history so far. *)
Record Env := mkEnv {
  (* process and file system *)
  cwd : Path;
  fs_exists : Path -> bool;
  readFileSync : Path -> Outcome string;
  outputFileSync : Path -> string -> Outcome unit;
  path_resolve : string -> Path;
  (* cheerio: the element children of the root of the loaded content *)
  cheerio_children : string -> list Element;
  (* lib/markbind parser *)
  includeFile : Path -> ProjectConfig -> Outcome string;
  renderFile : Path -> ProjectConfig -> Outcome string;
  htmlBeautify : string -> string;
  nunjucks_renderString : string -> string -> string -> Outcome string;
  (* lib/util/fsUtil *)
  isSourceFile : string -> bool;
  (* lib/Site *)
  readSiteConfig : Outcome SiteConfig;
  generate : Outcome unit;
  builder : list Effect -> BuilderOp -> string -> Outcome unit;
  (* chokidar and live-server *)
  chokidar_watch : Outcome unit;
  liveServer_start : Outcome unit;
  (* how chokidar decides what the [ignored] option leaves to it: whether a
     plain-string entry, which it compiles as a glob and completes with a
     glob for its subtree when the string has no glob character, matches a
     path; and whether its own rule for the temporary files of atomic
     writes, on where its [atomic] option defaults to true, drops a path *)
  anymatch_string : string -> string -> bool;
  atomic_ignored : string -> bool
}.

(** ** The effect monad *)

Record World := mkWorld {
  trace : list Effect;
  serverMount : list (string * Path)
}.

Definition initial : World := mkWorld [] [].

Definition M (A : Type) : Type := World -> Outcome A * World.

Definition ret {A} (a : A) : M A := fun w => (Fulfilled a, w).

Definition throw {A} (e : Error) : M A := fun w => (Rejected e, w).

Definition bind {A B} (m : M A) (k : A -> M B) : M B :=
  fun w =>
    match m w with
    | (Fulfilled a, w') => k a w'
    | (Rejected e, w') => (Rejected e, w')
    end.

(** [try { m } catch (e) { h e }], and [promise.catch(h)]. *)
Definition catch {A} (m : M A) (h : Error -> M A) : M A :=
  fun w =>
    match m w with
    | (Fulfilled a, w') => (Fulfilled a, w')
    | (Rejected e, w') => h e w'
    end.

#[global] Instance M_ret : MRet M := @ret.
#[global] Instance M_bind : MBind M := fun A B k m => bind m k.

Definition lift {A} (o : Outcome A) : M A := fun w => (o, w).

Definition emit (e : Effect) : M unit :=
  fun w => (Fulfilled tt, mkWorld (trace w ++ [e]) (serverMount w)).

Definition history : M (list Effect) := fun w => (Fulfilled (trace w), w).

(** A call whose promise is awaited by the chain. *)
Definition await {A} (c : Call) (answer : Outcome A) : M A :=
  emit (Began c);;
  catch (a ← lift answer; emit (Ended c true);; ret a)
        (fun e => emit (Ended c false);; throw e).

(** [Promise.resolve(v).then(f)]: [then_] is the bind of [M]. *)
Definition then_ {A B} (p : M A) (f : A -> M B) : M B := bind p f.

(** A chain whose final promise is dropped: a rejection reaching its end is
    an unhandled rejection. *)
Definition detach {A} (p : M A) : M unit :=
  fun w =>
    match p w with
    | (Fulfilled _, w') => (Fulfilled tt, w')
    | (Rejected e, w') => emit (Unhandled e) w'
    end.

(** Running a command from a world: whether the action returned or threw,
    and the trace it left. *)
Definition run {A} (m : M A) (w : World) : Outcome A := fst (m w).
Definition effects {A} (m : M A) (w : World) : list Effect := trace (snd (m w)).

(** ** ConfigResolver: find-up and [path.dirname] *)

(** [findUp.sync(name)]: look for [name] in the working directory, then in
    each parent up to the root; [null] when no directory has it. The
    directory is walked innermost segment first. *)
Fixpoint findUp_from (exists_ : Path -> bool) (name : string) (rdir : list string)
  : option Path :=
  if exists_ (rev rdir ++ [name]) then Some (rev rdir ++ [name])
  else match rdir with
       | [] => None
       | _ :: parent => findUp_from exists_ name parent
       end.

Definition findUp_sync (env : Env) (name : string) : option Path :=
  findUp_from (fs_exists env) name (rev (cwd env)).

(** [path.dirname(p)]: throws a [TypeError] when [p] is not a string. *)
Definition path_dirname (p : option Path) : Outcome Path :=
  match p with
  | Some segs => Fulfilled (removelast segs)
  | None => Rejected (TypeError "Path must be a string. Received null")
  end.

(** ** VariableStore *)

(** The [try { ... readFileSync ... } catch (e) { content = ''; warn }] block. *)
Definition loadVariablesContent (env : Env) (rootPath : Path) : M string :=
  catch
    (let userDefinedVariablesPath := path_join rootPath USER_VARIABLES_PATH in
     emit (FsRead userDefinedVariablesPath);;
     lift (readFileSync env userDefinedVariablesPath))
    (fun e => emit (LogWarn (message e));; ret "").

(** The [each] loop over the top-level elements. *)
Definition parseVariables (children : list Element) : gmap string string :=
  foldl (fun vars el => js_set vars (property_key (attr_id el)) (html el)) ∅ children.

(** [userDefinedVariables.baseUrl = '{{baseUrl}}']. *)
Definition injectBaseUrl (vars : gmap string string) : gmap string string :=
  js_set vars "baseUrl" "{{baseUrl}}".

Definition userDefinedVariables (env : Env) (content : string) : gmap string string :=
  injectBaseUrl (parseVariables (cheerio_children env content)).

(** ** One-shot commands *)

(** What both one-shot commands do with the engine's result: write it to
    [options.output] when that is set, print it otherwise. *)
Definition writeResult (env : Env) (output : option string) (result : string) : M unit :=
  match truthy output with
  | Some o =>
      let outputPath := path_resolve env o in
      emit (FsOutput outputPath result);;
      lift (outputFileSync env outputPath result);;
      emit Logo;;
      emit (LogInfo ("Result was written to " +:+ path_text outputPath))
  | None => emit (LogPlain result)
  end.

(** The action of [include <file>]. The part up to the [includeFile] call is
    synchronous: an exception there is thrown out of the action. *)
Definition include (env : Env) (file : string) (output : option string) : M unit :=
  let siteConfigPath := findUp_sync env SITE_CONFIG_NAME in
  rootPath ← lift (path_dirname siteConfigPath);
  let baseUrlMap := js_set ∅ (path_text rootPath) true in
  content ← loadVariablesContent env rootPath;
  let userDefinedVariables := userDefinedVariables env content in
  let config :=
    mkConfig rootPath baseUrlMap
             (Some (js_set ∅ (path_text rootPath) userDefinedVariables)) in
  let target := path_resolve env file in
  detach
    (catch
       (then_ (await (CIncludeFile target config) (includeFile env target config))
              (fun result => writeResult env output result))
       (fun error =>
          emit Logo;;
          emit (LogError "Error processing fragment include:");;
          emit (LogError (message error)))).

(** The action of [render <file>]. *)
Definition render (env : Env) (file : string) (output : option string) : M unit :=
  let siteConfigPath := findUp_sync env SITE_CONFIG_NAME in
  rootPath ← lift (path_dirname siteConfigPath);
  let baseUrlMap := js_set ∅ (path_text rootPath) true in
  let config := mkConfig rootPath baseUrlMap None in
  let target := path_resolve env file in
  detach
    (catch
       (then_ (await (CRenderFile target config) (renderFile env target config))
              (fun result =>
                 let baseUrl := path_text rootPath in
                 let hostBaseUrl := baseUrl in
                 formattedResult ←
                   lift (nunjucks_renderString env (htmlBeautify env result)
                                               baseUrl hostBaseUrl);
                 writeResult env output formattedResult))
       (fun error =>
          emit (LogError "Error processing file rendering:");;
          emit (LogError (message error)))).

(** ** The watch handlers of [serve] *)

Definition callBuilder (env : Env) (op : BuilderOp) (filePath : string) : M unit :=
  h ← history;
  await (CBuilder op filePath) (builder env h op filePath).

Definition classify (env : Env) (filePath : string) : M bool :=
  emit (Classify filePath);; ret (isSourceFile env filePath).

Definition addHandler (env : Env) (filePath : string) : M unit :=
  emit (LogInfo ("Reload for file add: " +:+ filePath));;
  detach
    (catch
       (then_ (ret "")
              (fun _ =>
                 isSource ← classify env filePath;
                 if (isSource : bool)
                 then callBuilder env rebuildAffectedSourceFiles filePath
                 else callBuilder env buildAsset filePath))
       (fun err => emit (LogError (message err)))).

Definition changeHandler (env : Env) (filePath : string) : M unit :=
  emit (LogInfo ("Reload for file change: " +:+ filePath));;
  detach
    (catch
       (then_ (ret "")
              (fun _ =>
                 isSource ← classify env filePath;
                 if (isSource : bool)
                 then callBuilder env rebuildAffectedSourceFiles filePath
                 else callBuilder env buildAsset filePath))
       (fun err => emit (LogError (message err)))).

Definition removeHandler (env : Env) (filePath : string) : M unit :=
  emit (LogInfo ("Reload for file deletion: " +:+ filePath));;
  detach
    (catch
       (then_ (ret "")
              (fun _ =>
                 isSource ← classify env filePath;
                 if (isSource : bool)
                 then callBuilder env rebuildAffectedSourceFiles filePath
                 else callBuilder env removeAsset filePath))
       (fun err => emit (LogError (message err)))).

(** [watcher.on('add', addHandler).on('change', changeHandler)
            .on('unlink', removeHandler)]. *)
Definition handler (env : Env) (k : EventKind) : string -> M unit :=
  match k with
  | add => addHandler env
  | change => changeHandler env
  | unlink => removeHandler env
  end.

(** ** The [ignored] option given to chokidar *)

Definition is_sep (c : ascii) : bool :=
  bool_decide (c = "/"%char) || bool_decide (c = "\"%char).

(** Line terminators, which the regular-expression dot does not match: line
    feed and carriage return (the other two, U+2028 and U+2029, lie outside
    the modelled range of code units). *)
Definition is_line_terminator (c : ascii) : bool :=
  bool_decide (c = "010"%char) || bool_decide (c = "013"%char).

(** [/(^|[/\\])\../.test(s)]: somewhere in [s], at its start or right after
    a slash or backslash, a dot followed by one more character that the
    regular-expression dot accepts. [boundary] tells whether the position
    being looked at is the start or follows a separator. *)
Fixpoint dotfile_re_from (boundary : bool) (s : string) : bool :=
  match s with
  | EmptyString => false
  | String c rest =>
      (boundary && bool_decide (c = "."%char) &&
       match rest with
       | String d _ => negb (is_line_terminator d)
       | EmptyString => false
       end)
      || dotfile_re_from (is_sep c) rest
  end.

Definition dotfile_re (s : string) : bool := dotfile_re_from true s.

(** [x.endsWith(suffix)]. *)
Fixpoint endsWith (x suffix : string) : bool :=
  String.eqb x suffix ||
  match x with
  | EmptyString => false
  | String _ rest => endsWith rest suffix
  end.

(** Whether the watcher drops a path. The [ignored] array of the file has
    four entries and a path is ignored when any of them accepts it: the
    output folder, a plain string, whose matching is chokidar's
    ([anymatch_string]); the regular expression; and the two suffix tests.
    Before them chokidar applies its own rule for atomic-write temporary
    files ([atomic_ignored]). *)
Definition ignored (env : Env) (outputFolder : Path) (p : string) : bool :=
  atomic_ignored env p
  || anymatch_string env (path_text outputFolder) p
  || dotfile_re p
  || endsWith p "___jb_tmp___"
  || endsWith p "___jb_old___".

(** chokidar raises an event only for a path that is not ignored, and then
    calls the handler bound to the event's kind. *)
Definition watcher_emit (env : Env) (outputFolder : Path) (ev : WatchEvent) : M unit :=
  if ignored env outputFolder (path ev) then ret tt
  else handler env (kind ev) (path ev).

(** The watcher over a stream of file-system events in the schedule where
    the work a handler defers is done, and its builder call settled, before
    the next event is raised; [move] below covers every other schedule. An
    exception thrown by a handler would end the stream. *)
Fixpoint watch_events (env : Env) (outputFolder : Path) (evs : list WatchEvent) : M unit :=
  match evs with
  | [] => ret tt
  | ev :: rest => watcher_emit env outputFolder ev;; watch_events env outputFolder rest
  end.

(** ** The [serve] command *)

Definition push_mount (entry : string * Path) : M unit :=
  fun w => (Fulfilled tt, mkWorld (trace w) (serverMount w ++ [entry])).

Definition read_mount : M (list (string * Path)) :=
  fun w => (Fulfilled (serverMount w), w).

(** The action of [serve [root]], up to the start of the preview server. The
    watcher is created on [rootFolder] with the [ignored] list built from
    [outputFolder] and [ignoreInitial: true]; [watch_events] is what it does
    with the events that follow. The [listening] callback, which only logs
    the address, is left out. *)
Definition serve (env : Env) (root : option string)
           (optPort : option string) (optOpen : bool) : M unit :=
  let rootFolder := path_resolve env (js_or root (path_text (cwd env))) in
  let outputFolder := path_join rootFolder ["_site"] in
  let portValue :=
    match truthy optPort with
    | Some p => PortOption p
    | None => PortNumber 8080
    end in
  emit Logo;;
  detach
    (catch
       (then_
          (then_
             (then_ (await CReadSiteConfig (readSiteConfig env))
                    (fun config =>
                       push_mount (js_or (baseUrl config) "/", outputFolder);;
                       await CGenerate (generate env)))
             (fun _ =>
                emit (WatchInstall rootFolder outputFolder true);;
                lift (chokidar_watch env)))
          (fun _ =>
             mounted ← read_mount;
             emit (ServerStart (mkServerConfig optOpen 0 outputFolder portValue mounted));;
             lift (liveServer_start env)))
       (fun error => emit (LogError (message error)))).

(** ** Notions the statements use *)

(** The effects a computation adds to the trace it starts from. *)
Definition new_effects {A} (m : M A) (w : World) : list Effect :=
  drop (length (trace w)) (effects m w).

(** The ids a variables file declares. *)
Definition declared_ids (children : list Element) : gset string :=
  list_to_set (omap attr_id children).

(** The property names the loop assigns to. *)
Definition assigned_keys (children : list Element) : gset string :=
  list_to_set ((fun el => property_key (attr_id el)) <$> children).

(** The last top-level element stored under property name [k]. *)
Definition last_for_key (k : string) (children : list Element) : option Element :=
  last (filter (fun el => property_key (attr_id el) = k) children).

(** A fixed environment on which statements are evaluated: a project at
    [/home/site], the command run from [/home/site/docs], a variables file
    that can be read, and collaborators that succeed. *)
(** Stand-ins for chokidar's own matching in the sample environments. A
    plain string without glob characters matches itself and what continues
    it with a slash; the sample entries that hold a glob character match
    none of the sample paths. Of the rule for atomic writes, the names
    ending in a tilde. *)
Definition glob_character (c : ascii) : bool :=
  bool_decide (c ∈ ["*"; "!"; "?"; "{"; "}"; "("; "|"; ")"; "["; "]"]%char).

Fixpoint sample_isGlob (s : string) : bool :=
  match s with
  | EmptyString => false
  | String c rest => glob_character c || sample_isGlob rest
  end.

Definition literal_subtree (dir p : string) : bool :=
  String.eqb p dir || String.prefix (dir +:+ "/") p.

Definition sample_anymatch (entry p : string) : bool :=
  if sample_isGlob entry then false else literal_subtree entry p.

Definition sample_atomic (p : string) : bool := endsWith p "~".

Definition sample_cheerio (content : string) : list Element :=
  if decide (content = "") then []
  else if decide (content = "<p>hello</p>") then [mkElement None "hello"]
  else if decide (content = "<span id='baseUrl'>/docs</span>")
       then [mkElement (Some "baseUrl") "/docs"]
  else [mkElement (Some "year") "2017"; mkElement (Some "year") "2018";
        mkElement (Some "author") "<b>me</b>"].

Definition sample_resolve (s : string) : Path :=
  if decide (s = "/home/site") then ["home"; "site"]
  else ["home"; "site"; "docs"; s].

Definition sample_env : Env := {|
  cwd := ["home"; "site"; "docs"];
  fs_exists := fun p => bool_decide (p = ["home"; "site"; "site.json"]);
  readFileSync := fun _ => Fulfilled "<span id='year'>2017</span> ...";
  outputFileSync := fun _ _ => Fulfilled tt;
  path_resolve := sample_resolve;
  cheerio_children := sample_cheerio;
  includeFile := fun _ _ => Fulfilled "<h1>included</h1>";
  renderFile := fun _ _ => Fulfilled "<h1>rendered</h1>";
  htmlBeautify := fun s => s;
  nunjucks_renderString := fun s _ _ => Fulfilled s;
  isSourceFile := fun p => endsWith p ".md";
  readSiteConfig := Fulfilled (mkSiteConfig (Some "/docs"));
  generate := Fulfilled tt;
  builder := fun _ _ _ => Fulfilled tt;
  chokidar_watch := Fulfilled tt;
  liveServer_start := Fulfilled tt;
  anymatch_string := sample_anymatch;
  atomic_ignored := sample_atomic
|}.

(** The same project with no variables file. *)
Definition no_variables_env : Env := {|
  cwd := cwd sample_env;
  fs_exists := fs_exists sample_env;
  readFileSync := fun _ => Rejected (mkError "Error" "ENOENT: no such file or directory");
  outputFileSync := outputFileSync sample_env;
  path_resolve := path_resolve sample_env;
  cheerio_children := cheerio_children sample_env;
  includeFile := includeFile sample_env;
  renderFile := renderFile sample_env;
  htmlBeautify := htmlBeautify sample_env;
  nunjucks_renderString := nunjucks_renderString sample_env;
  isSourceFile := isSourceFile sample_env;
  readSiteConfig := readSiteConfig sample_env;
  generate := generate sample_env;
  builder := builder sample_env;
  chokidar_watch := chokidar_watch sample_env;
  liveServer_start := liveServer_start sample_env;
  anymatch_string := anymatch_string sample_env;
  atomic_ignored := atomic_ignored sample_env
|}.

(** The same files, the command run from [/tmp/scratch], outside any project. *)
Definition outside_env : Env := {|
  cwd := ["tmp"; "scratch"];
  fs_exists := fs_exists sample_env;
  readFileSync := readFileSync sample_env;
  outputFileSync := outputFileSync sample_env;
  path_resolve := fun s => ["tmp"; "scratch"; s];
  cheerio_children := cheerio_children sample_env;
  includeFile := includeFile sample_env;
  renderFile := renderFile sample_env;
  htmlBeautify := htmlBeautify sample_env;
  nunjucks_renderString := nunjucks_renderString sample_env;
  isSourceFile := isSourceFile sample_env;
  readSiteConfig := readSiteConfig sample_env;
  generate := generate sample_env;
  builder := builder sample_env;
  chokidar_watch := chokidar_watch sample_env;
  liveServer_start := liveServer_start sample_env;
  anymatch_string := anymatch_string sample_env;
  atomic_ignored := atomic_ignored sample_env
|}.

(** ** Traces, the ignore policy and the dispatcher, as the statements
    speak of them *)

(** Unfolds the monad down to functions on worlds. *)
Ltac unfold_M :=
  unfold run, effects, new_effects, writeResult, await, then_, detach, catch,
    history, read_mount, push_mount, classify, callBuilder,
    mbind, M_bind, bind, mret, M_ret, ret, throw, emit, lift in *.

(** The spec's [ConfigNotFound]: in the file it is the [TypeError] that
    [path.dirname] throws on the [null] find-up returns. *)
Definition ConfigNotFound : Error :=
  TypeError "Path must be a string. Received null".

Definition config_read (e : Effect) : bool :=
  match e with Ended CReadSiteConfig true => true | _ => false end.

Definition generation_begun (e : Effect) : bool :=
  match e with Began CGenerate => true | _ => false end.

Definition generation_done (e : Effect) : bool :=
  match e with Ended CGenerate true => true | _ => false end.

Definition watcher_installed (e : Effect) : bool :=
  match e with WatchInstall _ _ _ => true | _ => false end.

Definition server_started (e : Effect) : bool :=
  match e with ServerStart _ => true | _ => false end.

(** In the trace [t], every effect satisfying [b] comes after one satisfying [a]. *)
Definition precedes (a b : Effect -> bool) (t : list Effect) : Prop :=
  forall (pre : list Effect) (x : Effect) (post : list Effect),
    t = pre ++ x :: post -> b x = true -> exists y : Effect, y ∈ pre /\ a y = true.

(** The same, decided by one pass over the trace. *)
Fixpoint precedes_from (seen : bool) (a b : Effect -> bool) (t : list Effect) : bool :=
  match t with
  | [] => true
  | x :: rest => (negb (b x) || seen) && precedes_from (seen || a x) a b rest
  end.

(** The sample project with a generation that fails and a builder that
    fails on [broken.md]. *)
Definition failing_build_env : Env := {|
  cwd := cwd sample_env;
  fs_exists := fs_exists sample_env;
  readFileSync := readFileSync sample_env;
  outputFileSync := outputFileSync sample_env;
  path_resolve := path_resolve sample_env;
  cheerio_children := cheerio_children sample_env;
  includeFile := includeFile sample_env;
  renderFile := renderFile sample_env;
  htmlBeautify := htmlBeautify sample_env;
  nunjucks_renderString := nunjucks_renderString sample_env;
  isSourceFile := isSourceFile sample_env;
  readSiteConfig := readSiteConfig sample_env;
  generate := Rejected (mkError "Error" "index.md: include not found");
  builder := fun _ _ p =>
    if endsWith p "broken.md" then Rejected (mkError "Error" "partial write")
    else Fulfilled tt;
  chokidar_watch := chokidar_watch sample_env;
  liveServer_start := liveServer_start sample_env;
  anymatch_string := anymatch_string sample_env;
  atomic_ignored := atomic_ignored sample_env
|}.

(** [path.basename] on POSIX text: the last non-empty segment. *)
Definition is_slash (c : ascii) : bool := bool_decide (c = "/"%char).

Fixpoint has_segment (s : string) : bool :=
  match s with
  | EmptyString => false
  | String c rest => negb (is_slash c) || has_segment rest
  end.

(** Whether a slash in [s] is followed by a further segment. *)
Fixpoint later_segment (s : string) : bool :=
  match s with
  | EmptyString => false
  | String c rest => if is_slash c then has_segment rest else later_segment rest
  end.

Fixpoint first_segment (s : string) : string :=
  match s with
  | EmptyString => EmptyString
  | String c rest => if is_slash c then EmptyString else String c (first_segment rest)
  end.

Fixpoint basename (s : string) : string :=
  match s with
  | EmptyString => EmptyString
  | String c rest =>
      if is_slash c then basename rest
      else if later_segment rest then basename rest
      else String c (first_segment rest)
  end.

(** The spec's transition table: event kind and classification to action. *)
Definition action_table (k : EventKind) (isSource : bool) : BuilderOp :=
  match k, isSource with
  | add, true => rebuildAffectedSourceFiles
  | change, true => rebuildAffectedSourceFiles
  | add, false => buildAsset
  | change, false => buildAsset
  | unlink, true => rebuildAffectedSourceFiles
  | unlink, false => removeAsset
  end.

Definition reload_message (k : EventKind) (filePath : string) : string :=
  match k with
  | add => "Reload for file add: " +:+ filePath
  | change => "Reload for file change: " +:+ filePath
  | unlink => "Reload for file deletion: " +:+ filePath
  end.

(** The builder calls begun in a trace, in order. *)
Definition builder_call (e : Effect) : option (BuilderOp * string) :=
  match e with
  | Began (CBuilder op filePath) => Some (op, filePath)
  | _ => None
  end.

Definition builder_calls (t : list Effect) : list (BuilderOp * string) :=
  omap builder_call t.

(** The path an effect of the dispatcher is about. *)
Definition dispatched_path (e : Effect) : option string :=
  match e with
  | Classify filePath => Some filePath
  | Began (CBuilder _ filePath) => Some filePath
  | Ended (CBuilder _ filePath) _ => Some filePath
  | _ => None
  end.

Definition is_unhandled (e : Effect) : bool :=
  match e with Unhandled _ => true | _ => false end.

(** What one handler call adds to the history [h]. *)
Definition handler_delta (env : Env) (k : EventKind) (filePath : string)
           (h : list Effect) : list Effect :=
  [LogInfo (reload_message k filePath); Classify filePath;
   Began (CBuilder (action_table k (isSourceFile env filePath)) filePath)]
  ++ match builder env (h ++ [LogInfo (reload_message k filePath); Classify filePath])
                   (action_table k (isSourceFile env filePath)) filePath with
     | Fulfilled _ =>
         [Ended (CBuilder (action_table k (isSourceFile env filePath)) filePath) true]
     | Rejected e =>
         [Ended (CBuilder (action_table k (isSourceFile env filePath)) filePath) false;
          LogError (message e)]
     end.

(** What the watcher adds to the history [h] over a stream of events. *)
Fixpoint stream_delta (env : Env) (outputFolder : Path) (evs : list WatchEvent)
         (h : list Effect) : list Effect :=
  match evs with
  | [] => []
  | ev :: rest =>
      let d := if ignored env outputFolder (path ev) then []
               else handler_delta env (kind ev) (path ev) h in
      d ++ stream_delta env outputFolder rest (h ++ d)
  end.

(** ** The dispatcher under any schedule

    A handler logs its reload line at once and defers the rest through
    [Promise.resolve('').then(...)]: the deferred function, which classifies
    the path and calls the builder, runs later, and the promise of the
    builder call settles later still. Between the three moments anything
    else may happen. A dispatcher state therefore holds, beside what was
    shown so far, the deferred functions not yet run and the builder calls
    not yet settled; a schedule is a list of moves, each raising an event,
    running one deferred function, or settling one call with an answer. *)

(** The builder method the deferred function of each handler calls. *)
Definition deferred_call (env : Env) (k : EventKind) (filePath : string) : BuilderOp :=
  match k with
  | add =>
      if isSourceFile env filePath then rebuildAffectedSourceFiles else buildAsset
  | change =>
      if isSourceFile env filePath then rebuildAffectedSourceFiles else buildAsset
  | unlink =>
      if isSourceFile env filePath then rebuildAffectedSourceFiles else removeAsset
  end.

(** What the end of a builder call shows: on a rejection the [.catch]
    handler logs the message. *)
Definition settled (op : BuilderOp) (filePath : string) (answer : Outcome unit)
  : list Effect :=
  match answer with
  | Fulfilled _ => [Ended (CBuilder op filePath) true]
  | Rejected e => [Ended (CBuilder op filePath) false; LogError (message e)]
  end.

Record Dispatcher := mkDispatcher {
  shown : list Effect;
  queued : list WatchEvent;
  awaiting : list (BuilderOp * string)
}.

Definition idle : Dispatcher := mkDispatcher [] [] [].

Inductive Move :=
| Raise (ev : WatchEvent)
| RunCallback (i : nat)
| Settle (i : nat) (answer : Outcome unit).

(** One move; [None] when the move names a deferred function or a call that
    is not there. *)
Definition move (env : Env) (outputFolder : Path) (m : Move) (d : Dispatcher)
  : option Dispatcher :=
  match m with
  | Raise ev =>
      if ignored env outputFolder (path ev) then Some d
      else Some (mkDispatcher
                   (shown d ++ [LogInfo (reload_message (kind ev) (path ev))])
                   (queued d ++ [ev])
                   (awaiting d))
  | RunCallback i =>
      match queued d !! i with
      | Some ev =>
          let op := deferred_call env (kind ev) (path ev) in
          Some (mkDispatcher
                  (shown d ++ [Classify (path ev); Began (CBuilder op (path ev))])
                  (delete i (queued d))
                  (awaiting d ++ [(op, path ev)]))
      | None => None
      end
  | Settle i answer =>
      match awaiting d !! i with
      | Some (op, filePath) =>
          Some (mkDispatcher
                  (shown d ++ settled op filePath answer)
                  (queued d)
                  (delete i (awaiting d)))
      | None => None
      end
  end.

Fixpoint run_moves (env : Env) (outputFolder : Path) (ms : list Move) (d : Dispatcher)
  : option Dispatcher :=
  match ms with
  | [] => Some d
  | m :: rest =>
      match move env outputFolder m d with
      | Some d' => run_moves env outputFolder rest d'
      | None => None
      end
  end.

(** The events of a schedule that the watcher does not drop. *)
Definition raised (env : Env) (outputFolder : Path) (ms : list Move) : list WatchEvent :=
  omap (fun m =>
          match m with
          | Raise ev => if ignored env outputFolder (path ev) then None else Some ev
          | _ => None
          end) ms.

(** The answers of a schedule that are rejections. *)
Definition rejections (ms : list Move) : list Error :=
  omap (fun m =>
          match m with
          | Settle _ (Rejected e) => Some e
          | _ => None
          end) ms.

(** A schedule with every answer replaced by a success. *)
Definition calm (ms : list Move) : list Move :=
  (fun m =>
     match m with
     | Settle i _ => Settle i (Fulfilled tt)
     | _ => m
     end) <$> ms.

Definition is_ended_call (e : Effect) : bool :=
  match e with Ended (CBuilder _ _) _ => true | _ => false end.

(** Two dispatcher states that agree on what is queued, what is awaited and
    which builder calls were begun. *)
Definition same_dispatch (d c : Dispatcher) : Prop :=
  queued d = queued c /\ awaiting d = awaiting c /\
  builder_calls (shown d) = builder_calls (shown c).


(** ** The other commands of the file *)

(** The output folder of [build [root] [output]]: [output] resolved against
    the working directory when given, [_site] under the root otherwise. *)
Definition build_outputFolder (env : Env) (root output : option string) : Path :=
  let rootFolder := path_resolve env (js_or root (path_text (cwd env))) in
  let defaultOutputRoot := path_join rootFolder ["_site"] in
  match truthy output with
  | Some o => path_resolve env o
  | None => defaultOutputRoot
  end.

(** The action of [build [root] [output]]: one generation of the site made
    of the root and output folders. *)
Definition build (env : Env) (root output : option string) : M unit :=
  let outputFolder := build_outputFolder env root output in
  emit Logo;;
  detach
    (catch
       (then_ (await CGenerate (generate env))
              (fun _ => emit (LogInfo "Build success!")))
       (fun error => emit (LogError (message error)))).

(** The action of [init [root]]; [initSite] is the answer of
    [Site.initSite(rootFolder)]. *)
Definition init (env : Env) (root : option string) (initSite : Outcome unit) : M unit :=
  let rootFolder := path_resolve env (js_or root (path_text (cwd env))) in
  emit Logo;;
  detach
    (catch
       (then_ (lift initSite)
              (fun _ => emit (LogInfo "Initialization success.")))
       (fun error => emit (LogError (message error)))).

(** The action of [deploy]; [siteDeploy] is the answer of [Site.deploy()].
    The logo is printed by the action itself, after the chain is set up and
    before its promise settles. *)
Definition deploy (env : Env) (siteDeploy : Outcome unit) : M unit :=
  let rootFolder := cwd env in
  let outputRoot := path_join rootFolder ["_site"] in
  emit Logo;;
  detach
    (catch
       (then_ (lift siteDeploy)
              (fun _ => emit (LogInfo "Deployed!")))
       (fun err => emit (LogError (message err)))).

(** What [server.address()] returns once the server listens. *)
Record Address := mkAddress { address : string; address_port : N }.

(** The decimal digits of a number in a template literal. *)
Definition decimal (n : N) : string := NilZero.string_of_uint (N.to_uint n).

Definition double_quote : string := String "034" EmptyString.

Definition serveHost (a : Address) : string :=
  if decide (address a = "0.0.0.0") then "127.0.0.1" else address a.

Definition serveURL (a : Address) : string :=
  "http://" +:+ serveHost a +:+ ":" +:+ decimal (address_port a).

(** The [listening] callback of [serve]. *)
Definition listening (outputFolder : Path) (a : Address) : M unit :=
  emit (LogInfo ("Serving " +:+ double_quote +:+ path_text outputFolder
                 +:+ double_quote +:+ " at " +:+ serveURL a));;
  emit (LogInfo "Press CTRL+C to stop ...").

(** A [serve] invocation followed by file-system events. The handlers are
    bound inside the second [.then] of the chain, so events reach them only
    when [chokidar.watch] was called and returned a watcher. *)
Definition watcher_bound (env : Env) (t : list Effect) : bool :=
  existsb watcher_installed t &&
  match chokidar_watch env with
  | Fulfilled _ => true
  | Rejected _ => false
  end.

Definition serve_session (env : Env) (root optPort : option string) (optOpen : bool)
           (evs : list WatchEvent) : M unit :=
  let rootFolder := path_resolve env (js_or root (path_text (cwd env))) in
  let outputFolder := path_join rootFolder ["_site"] in
  serve env root optPort optOpen;;
  t ← history;
  if watcher_bound env t then watch_events env outputFolder evs else ret tt.

(** Kinds of effects the statements count or exclude. *)
Definition is_output (e : Effect) : bool :=
  match e with FsOutput _ _ => true | _ => false end.

Definition is_printed (e : Effect) : bool :=
  match e with LogPlain _ => true | _ => false end.

Definition is_info (e : Effect) : bool :=
  match e with LogInfo _ => true | _ => false end.

Definition is_logged_error (e : Effect) : bool :=
  match e with LogError _ => true | _ => false end.

Definition is_failed_call (e : Effect) : bool :=
  match e with Ended (CBuilder _ _) false => true | _ => false end.

Definition is_dispatch (e : Effect) : bool :=
  match dispatched_path e with Some _ => true | None => false end.

(** The sample project with a default base URL, on a machine where the
    preview port is taken and the output path cannot be written. *)
Definition port_busy_env : Env := {|
  cwd := cwd sample_env;
  fs_exists := fs_exists sample_env;
  readFileSync := readFileSync sample_env;
  outputFileSync := fun _ _ => Rejected (mkError "Error" "EACCES: permission denied");
  path_resolve := path_resolve sample_env;
  cheerio_children := cheerio_children sample_env;
  includeFile := includeFile sample_env;
  renderFile := renderFile sample_env;
  htmlBeautify := htmlBeautify sample_env;
  nunjucks_renderString := nunjucks_renderString sample_env;
  isSourceFile := isSourceFile sample_env;
  readSiteConfig := Fulfilled (mkSiteConfig None);
  generate := generate sample_env;
  builder := builder sample_env;
  chokidar_watch := chokidar_watch sample_env;
  liveServer_start := Rejected (mkError "Error" "listen EADDRINUSE :::8080");
  anymatch_string := anymatch_string sample_env;
  atomic_ignored := atomic_ignored sample_env
|}.

(** The content the load step hands on, and the configs the one-shot
    commands build for a root. *)
Definition variables_content (env : Env) (rootPath : Path) : string :=
  match readFileSync env (path_join rootPath USER_VARIABLES_PATH) with
  | Fulfilled text => text
  | Rejected _ => ""
  end.

Definition include_config (env : Env) (rootPath : Path) : ProjectConfig :=
  mkConfig rootPath (js_set ∅ (path_text rootPath) true)
           (Some (js_set ∅ (path_text rootPath)
                         (userDefinedVariables env (variables_content env rootPath)))).

Definition render_config (rootPath : Path) : ProjectConfig :=
  mkConfig rootPath (js_set ∅ (path_text rootPath) true) None.

(** How many effects of a trace satisfy a test. *)
Definition count_effects (f : Effect -> bool) (t : list Effect) : nat :=
  length (List.filter f t).

(** Splits a membership in an explicit trace into its cases, dropping the
    entries whose constructor differs. *)
Ltac split_in H :=
  repeat (apply elem_of_cons in H as [H|H]; [try discriminate H|]);
  try (by apply elem_of_nil in H).

(** * Properties *)

(** ** The definitions on small inputs *)

Example dotfile_re_dotdir : dotfile_re "/home/site/.git/config" = true.
Proof. reflexivity. Qed.

Example dotfile_re_extension : dotfile_re "/home/site/index.md" = false.
Proof. reflexivity. Qed.

Example dotfile_re_backslash : dotfile_re "C:\site\.idea" = true.
Proof. reflexivity. Qed.

Example dotfile_re_lone_dot : dotfile_re "/home/site/." = false.
Proof. reflexivity. Qed.

Example endsWith_tmp : endsWith "/home/site/a.md___jb_tmp___" "___jb_tmp___" = true.
Proof. reflexivity. Qed.

Example endsWith_longer_suffix : endsWith "tmp___" "___jb_tmp___" = false.
Proof. reflexivity. Qed.

Example basename_trailing_slash : basename "/home/site/docs/" = "docs".
Proof. reflexivity. Qed.

Example basename_double_slash : basename "a//.b" = ".b".
Proof. reflexivity. Qed.

Example ignored_output : ignored sample_env ["home"; "site"; "_site"] "/home/site/_site/index.html" = true.
Proof. reflexivity. Qed.

Example ignored_sibling : ignored sample_env ["home"; "site"; "_site"] "/home/site/_sitemap.md" = false.
Proof. reflexivity. Qed.

Example findUp_nearest :
  findUp_sync sample_env SITE_CONFIG_NAME = Some ["home"; "site"; "site.json"].
Proof. reflexivity. Qed.

Example findUp_outside : findUp_sync outside_env SITE_CONFIG_NAME = None.
Proof. reflexivity. Qed.

Example parse_last_wins :
  parseVariables [mkElement (Some "a") "1"; mkElement None "x"; mkElement (Some "a") "2"]
  = {["a" := "2"; "undefined" := "x"]}.
Proof. by vm_compute. Qed.

Example parse_proto : parseVariables [mkElement (Some "__proto__") "x"] = ∅.
Proof. reflexivity. Qed.

Example include_sample :
  effects (include sample_env "page.md" None) initial
  = [FsRead ["home"; "site"; "_markbind"; "variables.md"];
     Began (CIncludeFile ["home"; "site"; "docs"; "page.md"]
              (mkConfig ["home"; "site"] {["/home/site" := true]}
                 (Some {["/home/site" :=
                           {["year" := "2018"; "author" := "<b>me</b>";
                             "baseUrl" := "{{baseUrl}}"]}]})));
     Ended (CIncludeFile ["home"; "site"; "docs"; "page.md"]
              (mkConfig ["home"; "site"] {["/home/site" := true]}
                 (Some {["/home/site" :=
                           {["year" := "2018"; "author" := "<b>me</b>";
                             "baseUrl" := "{{baseUrl}}"]}]}))) true;
     LogPlain "<h1>included</h1>"].
Proof. by vm_compute. Qed.

Example serve_sample :
  effects (serve sample_env (Some "/home/site") None true) initial
  = [Logo; Began CReadSiteConfig; Ended CReadSiteConfig true;
     Began CGenerate; Ended CGenerate true;
     WatchInstall ["home"; "site"] ["home"; "site"; "_site"] true;
     ServerStart (mkServerConfig true 0 ["home"; "site"; "_site"] (PortNumber 8080)
                    [("/docs", ["home"; "site"; "_site"])])].
Proof. reflexivity. Qed.

(** ** VariableStore *)

Section VariableStore.

Implicit Types (children : list Element) (k : string) (vars : gmap string string).

Lemma js_set_lookup {V} (o : gmap string V) k v j :
  js_set o k v !! j =
  if decide (k = "__proto__") then o !! j
  else if decide (k = j) then Some v else o !! j.
Proof.
  unfold js_set. destruct (decide (k = "__proto__")); [done|].
  by rewrite lookup_insert.
Qed.

Lemma parseVariables_snoc children el :
  parseVariables (children ++ [el]) =
  js_set (parseVariables children) (property_key (attr_id el)) (html el).
Proof. unfold parseVariables. by rewrite foldl_app. Qed.

Lemma last_for_key_snoc k children el :
  last_for_key k (children ++ [el]) =
  if decide (property_key (attr_id el) = k) then Some el
  else last_for_key k children.
Proof.
  unfold last_for_key. rewrite filter_app, filter_cons, filter_nil.
  destruct (decide (property_key (attr_id el) = k)).
  - by rewrite last_snoc.
  - by rewrite app_nil_r.
Qed.

(** No assignment ever creates [__proto__]. *)
Lemma parseVariables_proto children :
  parseVariables children !! "__proto__" = None.
Proof.
  induction children as [|el children IH] using rev_ind; [done|].
  rewrite parseVariables_snoc, js_set_lookup.
  destruct (decide (property_key (attr_id el) = "__proto__")); [done|].
  by destruct (decide (property_key (attr_id el) = "__proto__")).
Qed.

(** Last assignment wins: a property holds the markup of the last element
    stored under its name. *)
Lemma parseVariables_lookup children k :
  k ≠ "__proto__" ->
  parseVariables children !! k = html <$> last_for_key k children.
Proof.
  intros Hk.
  induction children as [|el children IH] using rev_ind; [done|].
  rewrite parseVariables_snoc, js_set_lookup, last_for_key_snoc.
  destruct (decide (property_key (attr_id el) = "__proto__")) as [Hp|Hp].
  - destruct (decide (property_key (attr_id el) = k)); [congruence|done].
  - destruct (decide (property_key (attr_id el) = k)); [done|apply IH].
Qed.

Lemma last_for_key_is_Some k children :
  is_Some (last_for_key k children) <-> k ∈ assigned_keys children.
Proof.
  unfold last_for_key, assigned_keys.
  rewrite elem_of_list_to_set, list_elem_of_fmap.
  split.
  - intros [el Hel]. apply last_Some_elem_of, list_elem_of_filter in Hel.
    destruct Hel as [Hkey Hin]. by exists el.
  - intros (el & -> & Hin).
    destruct (last (filter _ children)) eqn:E; [by eexists|].
    apply last_None in E.
    assert (el ∈ filter (fun el' => property_key (attr_id el') =
                                    property_key (attr_id el)) children) as Hf
      by (by apply list_elem_of_filter).
    rewrite E in Hf. by apply not_elem_of_nil in Hf.
Qed.

Lemma parseVariables_dom children :
  dom (parseVariables children) = assigned_keys children ∖ {["__proto__"]}.
Proof.
  apply set_eq. intros k.
  rewrite elem_of_dom, elem_of_difference, elem_of_singleton.
  destruct (decide (k = "__proto__")) as [->|Hk].
  - rewrite parseVariables_proto. split; [by intros [? ?]|by intros [_ []]].
  - rewrite parseVariables_lookup by done.
    rewrite fmap_is_Some, last_for_key_is_Some.
    split; [by intros ?; split|by intros [? _]].
Qed.

Lemma injectBaseUrl_lookup vars k :
  injectBaseUrl vars !! k =
  if decide (k = "baseUrl") then Some "{{baseUrl}}" else vars !! k.
Proof.
  unfold injectBaseUrl. rewrite js_set_lookup.
  destruct (decide ("baseUrl" = "__proto__")); [done|].
  destruct (decide ("baseUrl" = k)), (decide (k = "baseUrl")); congruence.
Qed.

Lemma injectBaseUrl_dom vars :
  dom (injectBaseUrl vars) = dom vars ∪ {["baseUrl"]}.
Proof.
  unfold injectBaseUrl, js_set.
  destruct (decide ("baseUrl" = "__proto__")); [done|].
  rewrite dom_insert_L. apply (comm_L (∪)).
Qed.

(** When every element carries an id, the assigned names are the ids. *)
Lemma assigned_keys_all_ids children :
  Forall (fun el => is_Some (attr_id el)) children ->
  assigned_keys children = declared_ids children.
Proof.
  unfold assigned_keys, declared_ids.
  induction 1 as [|el children [id Hid] _ IH]; [done|].
  rewrite fmap_cons. simpl. rewrite Hid. simpl. by rewrite IH.
Qed.

Lemma last_for_key_all_ids children id :
  Forall (fun el => is_Some (attr_id el)) children ->
  last_for_key id children = last (filter (fun el => attr_id el = Some id) children).
Proof.
  unfold last_for_key. intros Hall. f_equal.
  induction Hall as [|el children [i Hi] _ IH]; [done|].
  rewrite !filter_cons, IH, Hi. simpl.
  destruct (decide (i = id)), (decide (Some i = Some id)); congruence.
Qed.

End VariableStore.

(** C3. Whatever the variables file holds, and also when it could not be
    read, the load step yields some content and the variable map built from
    any content has [baseUrl] bound to the literal placeholder; the injected
    value replaces whatever the file declared under that id. *)
Theorem baseUrl_placeholder_C3 (env : Env) :
  (forall content : string,
      userDefinedVariables env content !! "baseUrl" = Some "{{baseUrl}}") /\
  (forall vars : gmap string string,
      injectBaseUrl vars !! "baseUrl" = Some "{{baseUrl}}") /\
  (forall (rootPath : Path) (w : World),
      exists content : string,
        run (loadVariablesContent env rootPath) w = Fulfilled content).
Proof.
  split; [|split].
  - intros content. unfold userDefinedVariables.
    by rewrite injectBaseUrl_lookup.
  - intros vars. by rewrite injectBaseUrl_lookup.
  - intros rootPath w.
    unfold run, loadVariablesContent, catch, mbind, M_bind, bind, emit, lift.
    simpl. destruct (readFileSync env _) as [content|e]; simpl; eauto.
Qed.

(** C4 (as amended). For a variables file whose top-level elements all carry
    an id, none of them [__proto__], declaring N distinct ids: the keys of
    the map are those N ids together with [baseUrl]; it has N entries when
    [baseUrl] is one of the declared ids and N + 1 otherwise; [baseUrl] is
    the placeholder whatever the file declared; every other id holds the
    markup of its last occurrence. *)
Theorem variables_entries_C4 (env : Env) (content : string) :
  Forall (fun el => is_Some (attr_id el)) (cheerio_children env content) ->
  "__proto__" ∉ declared_ids (cheerio_children env content) ->
  dom (userDefinedVariables env content)
    = declared_ids (cheerio_children env content) ∪ {["baseUrl"]} /\
  size (userDefinedVariables env content)
    = (if decide ("baseUrl" ∈ declared_ids (cheerio_children env content))
       then size (declared_ids (cheerio_children env content))
       else S (size (declared_ids (cheerio_children env content)))) /\
  userDefinedVariables env content !! "baseUrl" = Some "{{baseUrl}}" /\
  (forall id : string,
      id ∈ declared_ids (cheerio_children env content) ->
      id ≠ "baseUrl" ->
      userDefinedVariables env content !! id
        = html <$> last (filter (fun el => attr_id el = Some id)
                                (cheerio_children env content))).
Proof.
  intros Hall Hproto.
  set (children := cheerio_children env content) in *.
  assert (dom (userDefinedVariables env content)
          = declared_ids children ∪ {["baseUrl"]}) as Hdom.
  { unfold userDefinedVariables. fold children.
    rewrite injectBaseUrl_dom, parseVariables_dom, assigned_keys_all_ids by done.
    f_equal. apply set_eq. intros k.
    rewrite elem_of_difference, elem_of_singleton.
    split; [by intros [? _]|]. intros Hk. split; [done|]. by intros ->. }
  split; [done|]. split; [|split].
  - rewrite <- size_dom, Hdom.
    destruct (decide ("baseUrl" ∈ declared_ids children)) as [Hin|Hout].
    + f_equal. rewrite (comm_L (∪)).
      apply subseteq_union_1_L. by apply singleton_subseteq_l.
    + rewrite size_union, size_singleton by (by apply disjoint_singleton_r).
      lia.
  - unfold userDefinedVariables. by rewrite injectBaseUrl_lookup.
  - intros id Hid Hne. unfold userDefinedVariables. fold children.
    rewrite injectBaseUrl_lookup.
    destruct (decide (id = "baseUrl")); [done|].
    rewrite parseVariables_lookup by (by intros ->).
    by rewrite last_for_key_all_ids.
Qed.

(** C4, on a file with two entries for [year] and one for [author]. *)
Lemma variables_entries_C4_witness :
  size (userDefinedVariables sample_env "<span id='year'>...") = 3 /\
  userDefinedVariables sample_env "<span id='year'>..." !! "year" = Some "2018".
Proof.
  destruct (variables_entries_C4 sample_env "<span id='year'>...")
    as (_ & Hsize & _ & Hlast).
  - apply (bool_decide_unpack _). by vm_compute.
  - apply (bool_decide_unpack _). by vm_compute.
  - split.
    + rewrite Hsize. by vm_compute.
    + rewrite (Hlast "year"); [by vm_compute| |done].
      apply (bool_decide_unpack _). by vm_compute.
Defined.

(** C4 as stated fails twice. A file whose only element has no id declares
    0 ids, yet its map has two entries, one of them under a name that is no
    declared id. A file whose only element declares [baseUrl] declares 1 id
    and its map has 1 entry, not 1 + 1. *)
Lemma variables_entries_C4_counterexample :
  (declared_ids (cheerio_children sample_env "<p>hello</p>") = ∅ /\
   size (userDefinedVariables sample_env "<p>hello</p>") = 2 /\
   userDefinedVariables sample_env "<p>hello</p>" !! "undefined" = Some "hello") /\
  (size (declared_ids (cheerio_children sample_env "<span id='baseUrl'>/docs</span>")) = 1 /\
   size (userDefinedVariables sample_env "<span id='baseUrl'>/docs</span>") = 1) /\
  ~ (forall (env : Env) (content : string),
        size (userDefinedVariables env content)
        = S (size (declared_ids (cheerio_children env content)))).
Proof.
  split; [by vm_compute|]. split; [by vm_compute|].
  intros H. specialize (H sample_env "<p>hello</p>"). by vm_compute in H.
Qed.

(** C10. A top-level element without an id is stored like any other: its
    assignment goes to the property named [undefined]. Hence a file with such
    an element always ends with an [undefined] entry, holding the markup of
    the last element stored under that name, and when no element declares
    the id [undefined] that entry belongs to no declared id. *)
Theorem idless_element_C10 (env : Env) (content : string) (el : Element) :
  el ∈ cheerio_children env content ->
  attr_id el = None ->
  (forall vars : gmap string string,
      js_set vars (property_key (attr_id el)) (html el) !! "undefined"
      = Some (html el)) /\
  (exists stored : Element,
      last_for_key "undefined" (cheerio_children env content) = Some stored /\
      parseVariables (cheerio_children env content) !! "undefined"
      = Some (html stored) /\
      userDefinedVariables env content !! "undefined" = Some (html stored)) /\
  ("undefined" ∉ declared_ids (cheerio_children env content) ->
   "undefined" ∈ dom (userDefinedVariables env content)
                 ∖ declared_ids (cheerio_children env content)).
Proof.
  intros Hin Hid.
  assert ("undefined" ∈ assigned_keys (cheerio_children env content)) as Hkey.
  { unfold assigned_keys. rewrite elem_of_list_to_set, list_elem_of_fmap.
    exists el. by rewrite Hid. }
  apply last_for_key_is_Some in Hkey as [stored Hstored].
  assert (userDefinedVariables env content !! "undefined" = Some (html stored))
    as Hvars.
  { unfold userDefinedVariables. rewrite injectBaseUrl_lookup.
    destruct (decide ("undefined" = "baseUrl")); [done|].
    rewrite parseVariables_lookup by done. by rewrite Hstored. }
  split; [|split].
  - intros vars. rewrite Hid, js_set_lookup. simpl.
    destruct (decide ("undefined" = "__proto__")); [done|].
    by destruct (decide ("undefined" = "undefined")).
  - exists stored. split; [done|]. split; [|done].
    rewrite parseVariables_lookup by done. by rewrite Hstored.
  - intros Hnot. rewrite elem_of_difference, elem_of_dom. split; [|done].
    by rewrite Hvars.
Qed.

(** C10, on a file that is one paragraph without an id. *)
Lemma idless_element_C10_witness :
  userDefinedVariables sample_env "<p>hello</p>" !! "undefined" = Some "hello".
Proof.
  destruct (idless_element_C10 sample_env "<p>hello</p>" (mkElement None "hello"))
    as (_ & (stored & Hstored & _ & Hvars) & _).
  - apply (bool_decide_unpack _). by vm_compute.
  - reflexivity.
  - rewrite Hvars. vm_compute in Hstored. by injection Hstored as <-.
Defined.

(** C7. When the variables file cannot be read, the load step does not
    throw: it continues with the empty content, which has no top-level
    element and so gives the empty mapping, and beyond the attempted read the
    one thing it does is log the error's message as a warning. *)
Theorem load_failure_C7 (env : Env) (rootPath : Path) (e : Error) (w : World) :
  readFileSync env (path_join rootPath USER_VARIABLES_PATH) = Rejected e ->
  cheerio_children env "" = [] ->
  run (loadVariablesContent env rootPath) w = Fulfilled "" /\
  new_effects (loadVariablesContent env rootPath) w
    = [FsRead (path_join rootPath USER_VARIABLES_PATH); LogWarn (message e)] /\
  serverMount (snd (loadVariablesContent env rootPath w)) = serverMount w /\
  parseVariables (cheerio_children env "") = ∅.
Proof.
  intros Hread Hempty.
  unfold new_effects, effects, run, loadVariablesContent, catch, mbind, M_bind,
    bind, emit, lift, mret, M_ret, ret.
  simpl. rewrite Hread. simpl. rewrite Hempty.
  repeat split.
  rewrite <- app_assoc. by rewrite drop_app_length.
Qed.

(** C7, on a project without a variables file. *)
Lemma load_failure_C7_witness :
  run (loadVariablesContent no_variables_env ["home"; "site"]) initial = Fulfilled "" /\
  new_effects (loadVariablesContent no_variables_env ["home"; "site"]) initial
    = [FsRead ["home"; "site"; "_markbind"; "variables.md"];
       LogWarn "ENOENT: no such file or directory"].
Proof.
  destruct (load_failure_C7 no_variables_env ["home"; "site"]
              (mkError "Error" "ENOENT: no such file or directory") initial)
    as (Hrun & Heff & _ & _).
  - reflexivity.
  - reflexivity.
  - split; [exact Hrun|exact Heff].
Defined.

(** ** ConfigResolver and the one-shot commands *)

Lemma findUp_from_None (exists_ : Path -> bool) (name : string) (rdir : list string) :
  (forall dir : Path, dir `prefix_of` rev rdir -> exists_ (dir ++ [name]) = false) ->
  findUp_from exists_ name rdir = None.
Proof.
  induction rdir as [|seg parent IH]; intros Hnone; simpl.
  - specialize (Hnone [] (prefix_nil _)). simpl in Hnone. by rewrite Hnone.
  - rewrite (Hnone (rev parent ++ [seg])) by done.
    apply IH. intros dir Hdir. apply Hnone. simpl.
    by apply prefix_app_r.
Qed.

(** What find-up returns is the marker inside an ancestor of the starting
    directory that has it. *)
Lemma findUp_from_Some (exists_ : Path -> bool) (name : string) (rdir : list string)
      (found : Path) :
  findUp_from exists_ name rdir = Some found ->
  exists dir : Path,
    dir `prefix_of` rev rdir /\ found = dir ++ [name] /\ exists_ found = true.
Proof.
  induction rdir as [|seg parent IH]; simpl.
  - destruct (exists_ [name]) eqn:E; [|done].
    intros [= <-]. by exists [].
  - destruct (exists_ ((rev parent ++ [seg]) ++ [name])) eqn:E.
    + intros [= <-]. by exists (rev parent ++ [seg]).
    + intros Hrec. destruct (IH Hrec) as (dir & Hdir & -> & Hex).
      exists dir. split; [by apply prefix_app_r|done].
Qed.

Lemma path_text_slash (p : Path) : exists rest : string, path_text p = String "/" rest.
Proof. destruct p; simpl; eauto. Qed.

Lemma js_set_path {V} (p : Path) (v : V) :
  js_set ∅ (path_text p) v = {[path_text p := v]}.
Proof.
  unfold js_set. destruct (path_text_slash p) as [rest ->].
  destruct (decide (String "/" rest = "__proto__")); [done|].
  by rewrite insert_empty.
Qed.

(** C6. Run where no ancestor directory has the marker, [include] throws the
    error of the failed root lookup and leaves the world as it found it: no
    file is read or written and the engine is not called. *)
Theorem include_outside_project_C6 (env : Env) (file : string)
        (output : option string) (w : World) :
  (forall dir : Path,
      dir `prefix_of` cwd env -> fs_exists env (dir ++ [SITE_CONFIG_NAME]) = false) ->
  findUp_sync env SITE_CONFIG_NAME = None /\
  run (include env file output) w = Rejected ConfigNotFound /\
  snd (include env file output w) = w /\
  new_effects (include env file output) w = [].
Proof.
  intros Hnone.
  assert (findUp_sync env SITE_CONFIG_NAME = None) as Hfind.
  { unfold findUp_sync. apply findUp_from_None.
    intros dir. rewrite rev_involutive. apply Hnone. }
  split; [done|].
  unfold include. rewrite Hfind. unfold_M. simpl.
  repeat split. by rewrite drop_all.
Qed.

(** C6, on a command run from [/tmp/scratch]. *)
Lemma include_outside_project_C6_witness :
  run (include outside_env "page.md" (Some "out.html")) initial
    = Rejected ConfigNotFound /\
  effects (include outside_env "page.md" (Some "out.html")) initial = [].
Proof.
  destruct (include_outside_project_C6 outside_env "page.md" (Some "out.html") initial)
    as (_ & Hrun & Hworld & _).
  - intros dir Hdir. destruct Hdir as [k Hk]. simpl in Hk.
    destruct dir as [|a [|b [|c dir]]]; simpl in Hk; simplify_eq; reflexivity.
  - split; [exact Hrun|]. unfold effects. by rewrite Hworld.
Defined.

(** C5 (as amended). When the root resolves, it is an ancestor of the working
    directory holding the marker. [include] then reads the variables file of
    that root and calls the engine with a config made of [rootPath],
    [baseUrlMap] and a [userDefinedVariablesMap] binding the root to the
    prepared variables. [render] calls the engine with a config made of
    [rootPath] and [baseUrlMap] alone: it reads no variables file and its
    config has no [userDefinedVariablesMap]. *)
Theorem one_shot_config_C5 (env : Env) (file : string) (output : option string)
        (siteConfigPath : Path) :
  findUp_sync env SITE_CONFIG_NAME = Some siteConfigPath ->
  (removelast siteConfigPath `prefix_of` cwd env /\
   fs_exists env (removelast siteConfigPath ++ [SITE_CONFIG_NAME]) = true) /\
  (exists (content : string) (warning rest : list Effect),
      run (loadVariablesContent env (removelast siteConfigPath)) initial
        = Fulfilled content /\
      effects (include env file output) initial
        = FsRead (path_join (removelast siteConfigPath) USER_VARIABLES_PATH)
          :: warning
          ++ Began (CIncludeFile (path_resolve env file)
               (mkConfig (removelast siteConfigPath)
                  {[path_text (removelast siteConfigPath) := true]}
                  (Some {[path_text (removelast siteConfigPath)
                          := userDefinedVariables env content]})))
          :: rest) /\
  (exists rest : list Effect,
      effects (render env file output) initial
        = Began (CRenderFile (path_resolve env file)
            (mkConfig (removelast siteConfigPath)
               {[path_text (removelast siteConfigPath) := true]} None))
          :: rest /\
      forall p : Path, FsRead p ∉ effects (render env file output) initial).
Proof.
  intros Hfind. split; [|split].
  - unfold findUp_sync in Hfind.
    apply findUp_from_Some in Hfind as (dir & Hdir & -> & Hex).
    rewrite rev_involutive in Hdir. by rewrite removelast_last.
  - unfold include. rewrite Hfind. simpl.
    set (rootPath := removelast siteConfigPath).
    unfold loadVariablesContent. unfold_M. simpl.
    destruct (readFileSync env _) as [content|e]; simpl; rewrite !js_set_path.
    + exists content, []. simpl.
      destruct (includeFile env _ _) as [result|err]; simpl; [|by eauto].
      destruct (truthy output); simpl; [|by eauto].
      destruct (outputFileSync env _ _); simpl; by eauto.
    + exists "", [LogWarn (message e)]. simpl.
      destruct (includeFile env _ _) as [result|err]; simpl; [|by eauto].
      destruct (truthy output); simpl; [|by eauto].
      destruct (outputFileSync env _ _); simpl; by eauto.
  - unfold render. rewrite Hfind. simpl.
    unfold_M. simpl. rewrite !js_set_path.
    destruct (renderFile env _ _) as [result|err]; simpl.
    + destruct (nunjucks_renderString env _ _ _) as [formatted|err]; simpl.
      * destruct (truthy output); simpl.
        -- destruct (outputFileSync env _ _); simpl;
             (eexists; split; [done|]); intros p Hp;
             repeat (apply elem_of_cons in Hp as [Hp|Hp]; [done|]);
             by apply elem_of_nil in Hp.
        -- eexists; split; [done|]. intros p Hp.
           repeat (apply elem_of_cons in Hp as [Hp|Hp]; [done|]).
           by apply elem_of_nil in Hp.
      * eexists; split; [done|]. intros p Hp.
        repeat (apply elem_of_cons in Hp as [Hp|Hp]; [done|]).
        by apply elem_of_nil in Hp.
    + eexists; split; [done|]. intros p Hp.
      repeat (apply elem_of_cons in Hp as [Hp|Hp]; [done|]).
      by apply elem_of_nil in Hp.
Qed.

(** C5, on the sample project: the root is [/home/site] and [render] starts
    with the engine call on a config without variables. *)
Lemma one_shot_config_C5_witness :
  ["home"; "site"] `prefix_of` cwd sample_env /\
  exists rest : list Effect,
    effects (render sample_env "page.md" None) initial
    = Began (CRenderFile ["home"; "site"; "docs"; "page.md"]
               (mkConfig ["home"; "site"] {["/home/site" := true]} None))
      :: rest.
Proof.
  destruct (one_shot_config_C5 sample_env "page.md" None
              ["home"; "site"; "site.json"])
    as ((Hancestor & _) & _ & (rest & Hrender & _)).
  - reflexivity.
  - split; [exact Hancestor|]. exists rest. exact Hrender.
Defined.

(** C5 as stated fails for [render]: on the sample project its whole trace is
    the engine call, on a config whose [userDefinedVariablesMap] was never
    assigned, and the printing of the result; no variables file is read. *)
Lemma one_shot_config_C5_counterexample :
  effects (render sample_env "page.md" None) initial
    = [Began (CRenderFile ["home"; "site"; "docs"; "page.md"]
                (mkConfig ["home"; "site"] {["/home/site" := true]} None));
       Ended (CRenderFile ["home"; "site"; "docs"; "page.md"]
                (mkConfig ["home"; "site"] {["/home/site" := true]} None)) true;
       LogPlain "<h1>rendered</h1>"] /\
  ~ (exists (target : Path) (config : ProjectConfig),
        Began (CRenderFile target config)
          ∈ effects (render sample_env "page.md" None) initial /\
        is_Some (userDefinedVariablesMap config)).
Proof.
  assert (effects (render sample_env "page.md" None) initial
    = [Began (CRenderFile ["home"; "site"; "docs"; "page.md"]
                (mkConfig ["home"; "site"] {["/home/site" := true]} None));
       Ended (CRenderFile ["home"; "site"; "docs"; "page.md"]
                (mkConfig ["home"; "site"] {["/home/site" := true]} None)) true;
       LogPlain "<h1>rendered</h1>"]) as Htrace by reflexivity.
  split; [exact Htrace|].
  intros (target & config & Hin & Hsome). rewrite Htrace in Hin.
  repeat (apply elem_of_cons in Hin as [Hin|Hin];
          [try discriminate Hin;
           try (injection Hin as _ ->; by destruct Hsome)|]).
  by apply elem_of_nil in Hin.
Qed.

(** ** The [serve] sequence *)

Lemma precedes_from_spec (a b : Effect -> bool) (t : list Effect) (seen : bool) :
  precedes_from seen a b t = true ->
  forall (pre : list Effect) (x : Effect) (post : list Effect),
    t = pre ++ x :: post -> b x = true ->
    seen = true \/ exists y : Effect, y ∈ pre /\ a y = true.
Proof.
  revert seen. induction t as [|z t IH]; intros seen Hcheck pre x post Heq Hb.
  - by destruct pre.
  - simpl in Hcheck. apply andb_prop in Hcheck as [Hhere Hrest].
    destruct pre as [|p pre]; simpl in Heq; injection Heq as -> ->.
    + rewrite Hb in Hhere. simpl in Hhere. by left.
    + destruct (IH _ Hrest pre x post eq_refl Hb) as [Hseen|(y & Hy & Ha)].
      * apply orb_prop in Hseen as [Hseen|Hz]; [by left|].
        right. exists p. split; [apply list_elem_of_here|done].
      * right. exists y. split; [by apply list_elem_of_further|done].
Qed.

Lemma precedes_from_sound (a b : Effect -> bool) (t : list Effect) :
  precedes_from false a b t = true -> precedes a b t.
Proof.
  intros Hcheck pre x post Heq Hb.
  by destruct (precedes_from_spec a b t false Hcheck pre x post Heq Hb).
Qed.

(** C1. A [serve] invocation starts by reading the site configuration; the
    generation is begun only after the configuration was read, the watcher
    is installed only after the generation has completed, and the server is
    started only after the watcher was installed. When the configuration is
    read and the generation completes, the watcher is installed right after
    it, and when the watcher is created the server is started right after
    that. When reading the configuration fails, or the generation fails, the
    chain goes straight to its error handler: the message is logged and the
    trace holds neither a watcher installation nor a server start. *)
Theorem serve_sequence_C1 (env : Env) (root optPort : option string) (optOpen : bool) :
  (exists rest : list Effect,
      effects (serve env root optPort optOpen) initial
      = Logo :: Began CReadSiteConfig :: rest) /\
  precedes config_read generation_begun
           (effects (serve env root optPort optOpen) initial) /\
  precedes generation_done watcher_installed
           (effects (serve env root optPort optOpen) initial) /\
  precedes watcher_installed server_started
           (effects (serve env root optPort optOpen) initial) /\
  (forall e : Error,
      readSiteConfig env = Rejected e ->
      effects (serve env root optPort optOpen) initial
      = [Logo; Began CReadSiteConfig; Ended CReadSiteConfig false;
         LogError (message e)]) /\
  (forall (config : SiteConfig) (e : Error),
      readSiteConfig env = Fulfilled config ->
      generate env = Rejected e ->
      effects (serve env root optPort optOpen) initial
      = [Logo; Began CReadSiteConfig; Ended CReadSiteConfig true;
         Began CGenerate; Ended CGenerate false; LogError (message e)]) /\
  ((exists e : Error, readSiteConfig env = Rejected e \/ generate env = Rejected e) ->
   Forall (fun x => watcher_installed x = false /\ server_started x = false)
          (effects (serve env root optPort optOpen) initial)) /\
  (forall config : SiteConfig,
      readSiteConfig env = Fulfilled config ->
      generate env = Fulfilled tt ->
      exists rest : list Effect,
        effects (serve env root optPort optOpen) initial
        = [Logo; Began CReadSiteConfig; Ended CReadSiteConfig true;
           Began CGenerate; Ended CGenerate true;
           WatchInstall (path_resolve env (js_or root (path_text (cwd env))))
                        (path_resolve env (js_or root (path_text (cwd env))) ++ ["_site"])
                        true]
          ++ rest) /\
  (forall config : SiteConfig,
      readSiteConfig env = Fulfilled config ->
      generate env = Fulfilled tt ->
      chokidar_watch env = Fulfilled tt ->
      exists (started : ServerConfig) (rest : list Effect),
        effects (serve env root optPort optOpen) initial
        = [Logo; Began CReadSiteConfig; Ended CReadSiteConfig true;
           Began CGenerate; Ended CGenerate true;
           WatchInstall (path_resolve env (js_or root (path_text (cwd env))))
                        (path_resolve env (js_or root (path_text (cwd env))) ++ ["_site"])
                        true;
           ServerStart started]
          ++ rest).
Proof.
  unfold serve, path_join. unfold_M. simpl.
  destruct (readSiteConfig env) as [config|e1]; simpl;
    [destruct (generate env) as [[]|e2]; simpl;
     [destruct (chokidar_watch env) as [[]|e3]; simpl;
      [destruct (liveServer_start env) as [[]|e4]; simpl|]|]|];
    (split; [by eexists|]);
    (split; [by apply precedes_from_sound|]);
    (split; [by apply precedes_from_sound|]);
    (split; [by apply precedes_from_sound|]);
    (split; [by intros ? [=]; subst|]);
    (split; [by intros ? ? [=] [=]; subst|]);
    (split; [intros [e [H|H]]; try discriminate H; repeat constructor|]);
    (split; [intros c Hc Hg; try discriminate Hc; try discriminate Hg;
             eexists; reflexivity
            |intros c Hc Hg Hw; try discriminate Hc; try discriminate Hg;
             try discriminate Hw; do 2 eexists; reflexivity]).
Qed.

(** C1, on a project whose generation fails and on the sample project. *)
Lemma serve_sequence_C1_witness :
  effects (serve failing_build_env None None true) initial
  = [Logo; Began CReadSiteConfig; Ended CReadSiteConfig true;
     Began CGenerate; Ended CGenerate false;
     LogError "index.md: include not found"] /\
  exists (started : ServerConfig) (rest : list Effect),
    effects (serve sample_env (Some "/home/site") None true) initial
    = [Logo; Began CReadSiteConfig; Ended CReadSiteConfig true;
       Began CGenerate; Ended CGenerate true;
       WatchInstall ["home"; "site"] ["home"; "site"; "_site"] true;
       ServerStart started]
      ++ rest.
Proof.
  split.
  - destruct (serve_sequence_C1 failing_build_env None None true)
      as (_ & _ & _ & _ & _ & Hgenerate & _).
    apply (Hgenerate (mkSiteConfig (Some "/docs"))
                     (mkError "Error" "index.md: include not found"));
      reflexivity.
  - destruct (serve_sequence_C1 sample_env (Some "/home/site") None true)
      as (_ & _ & _ & _ & _ & _ & _ & _ & Hserver).
    apply (Hserver (mkSiteConfig (Some "/docs"))); reflexivity.
Defined.

(** ** The ignore policy *)





(** ** WatchDispatcher *)

Lemma handler_spec (env : Env) (k : EventKind) (filePath : string) (w : World) :
  handler env k filePath w
  = (Fulfilled tt,
     mkWorld (trace w ++ handler_delta env k filePath (trace w)) (serverMount w)).
Proof.
  unfold handler_delta.
  destruct k, (isSourceFile env filePath) eqn:Hsrc;
    unfold handler, addHandler, changeHandler, removeHandler; unfold_M;
    simpl; rewrite Hsrc; simpl; rewrite <- !app_assoc; simpl;
    destruct (builder env _ _ _) as [[]|e]; simpl;
    rewrite <- !app_assoc; reflexivity.
Qed.

Lemma watch_events_spec (env : Env) (outputFolder : Path) (evs : list WatchEvent)
      (w : World) :
  watch_events env outputFolder evs w
  = (Fulfilled tt,
     mkWorld (trace w ++ stream_delta env outputFolder evs (trace w)) (serverMount w)).
Proof.
  revert w. induction evs as [|ev rest IH]; intros w; simpl.
  - unfold mret, M_ret, ret. rewrite app_nil_r. by destruct w.
  - unfold mbind, M_bind, bind, watcher_emit.
    destruct (ignored env outputFolder (path ev)).
    + unfold mret, M_ret, ret. rewrite IH. simpl. by rewrite app_nil_r.
    + rewrite handler_spec, IH. simpl. by rewrite <- app_assoc.
Qed.

Lemma new_effects_watch_events (env : Env) (outputFolder : Path)
      (evs : list WatchEvent) (w : World) :
  new_effects (watch_events env outputFolder evs) w
  = stream_delta env outputFolder evs (trace w).
Proof.
  unfold new_effects, effects. rewrite watch_events_spec. simpl.
  by rewrite drop_app_length.
Qed.

Lemma new_effects_handler (env : Env) (k : EventKind) (filePath : string) (w : World) :
  new_effects (handler env k filePath) w = handler_delta env k filePath (trace w).
Proof.
  unfold new_effects, effects. rewrite handler_spec. simpl.
  by rewrite drop_app_length.
Qed.

Lemma handler_delta_calls (env : Env) (k : EventKind) (filePath : string)
      (h : list Effect) :
  builder_calls (handler_delta env k filePath h)
  = [(action_table k (isSourceFile env filePath), filePath)].
Proof. unfold handler_delta. by destruct (builder env _ _ _). Qed.

Lemma handler_delta_handled (env : Env) (k : EventKind) (filePath : string)
      (h : list Effect) :
  Forall (fun x => is_unhandled x = false) (handler_delta env k filePath h).
Proof. unfold handler_delta. destruct (builder env _ _ _); by repeat constructor. Qed.


(** C2. Each handler classifies the event's path and begins exactly one
    builder call, on that same path, chosen as the transition table says:
    add or change of a source file and unlink of a source file rebuild the
    affected source files, add or change of an asset builds that asset, and
    unlink of an asset removes it. *)
Theorem dispatch_table_C2 (env : Env) (ev : WatchEvent) (w : World) :
  builder_calls (new_effects (handler env (kind ev) (path ev)) w)
    = [(action_table (kind ev) (isSourceFile env (path ev)), path ev)] /\
  Classify (path ev) ∈ new_effects (handler env (kind ev) (path ev)) w /\
  action_table add true = rebuildAffectedSourceFiles /\
  action_table change true = rebuildAffectedSourceFiles /\
  action_table add false = buildAsset /\
  action_table change false = buildAsset /\
  action_table unlink true = rebuildAffectedSourceFiles /\
  action_table unlink false = removeAsset.
Proof.
  rewrite new_effects_handler. split; [apply handler_delta_calls|].
  split; [|done].
  unfold handler_delta. apply list_elem_of_further, list_elem_of_here.
Qed.

Lemma stream_delta_calls (env : Env) (outputFolder : Path) (evs : list WatchEvent)
      (h : list Effect) :
  builder_calls (stream_delta env outputFolder evs h)
  = (fun ev => (action_table (kind ev) (isSourceFile env (path ev)), path ev))
      <$> filter (fun ev => ignored env outputFolder (path ev) = false) evs.
Proof.
  revert h. induction evs as [|ev rest IH]; intros h; [done|].
  simpl. unfold builder_calls in *. rewrite omap_app, IH, filter_cons.
  destruct (ignored env outputFolder (path ev)) eqn:Hignored.
  - by destruct (decide (true = false)).
  - destruct (decide (false = false)); [|done].
    rewrite fmap_cons. fold (builder_calls (handler_delta env (kind ev) (path ev) h)).
    by rewrite handler_delta_calls.
Qed.

Lemma stream_delta_handled (env : Env) (outputFolder : Path) (evs : list WatchEvent)
      (h : list Effect) :
  Forall (fun x => is_unhandled x = false) (stream_delta env outputFolder evs h).
Proof.
  revert h. induction evs as [|ev rest IH]; intros h; [by constructor|].
  simpl. apply Forall_app. split; [|apply IH].
  destruct (ignored env outputFolder (path ev)); [by constructor|].
  apply handler_delta_handled.
Qed.


Lemma count_effects_app (f : Effect -> bool) (t1 t2 : list Effect) :
  count_effects f (t1 ++ t2) = count_effects f t1 + count_effects f t2.
Proof. unfold count_effects. by rewrite List.filter_app, length_app. Qed.

Lemma deferred_call_table (env : Env) (k : EventKind) (filePath : string) :
  deferred_call env k filePath = action_table k (isSourceFile env filePath).
Proof. unfold deferred_call. by destruct k, (isSourceFile env filePath). Qed.

(** The schedule that runs the deferred function and settles its call right
    after the event is the handler run as a whole. *)
Lemma moves_of_handler (env : Env) (outputFolder : Path) (k : EventKind)
      (filePath : string) (w : World) :
  ignored env outputFolder filePath = false ->
  run_moves env outputFolder
    [Raise (mkEvent k filePath); RunCallback 0;
     Settle 0 (builder env (trace w ++ [LogInfo (reload_message k filePath);
                                        Classify filePath])
                       (deferred_call env k filePath) filePath)]
    (mkDispatcher (trace w) [] [])
  = Some (mkDispatcher (effects (handler env k filePath) w) [] []).
Proof.
  intros Hnot. unfold effects. rewrite handler_spec. simpl. rewrite Hnot. simpl.
  unfold handler_delta, settled. rewrite deferred_call_table.
  destruct (builder env _ _ _); simpl; by rewrite <- !app_assoc.
Qed.

Lemma builder_calls_app (t1 t2 : list Effect) :
  builder_calls (t1 ++ t2) = builder_calls t1 ++ builder_calls t2.
Proof. unfold builder_calls. apply omap_app. Qed.

Lemma builder_calls_settled (op : BuilderOp) (filePath : string) (answer : Outcome unit) :
  builder_calls (settled op filePath answer) = [].
Proof. by destruct answer. Qed.

Lemma run_moves_answers (env : Env) (outputFolder : Path) (ms ms' : list Move)
      (d c d' : Dispatcher) :
  calm ms = calm ms' ->
  same_dispatch d c ->
  run_moves env outputFolder ms d = Some d' ->
  exists c' : Dispatcher,
    run_moves env outputFolder ms' c = Some c' /\ same_dispatch d' c'.
Proof.
  revert ms' d c. induction ms as [|m ms IH]; intros ms' d c Hcalm Hsame Hrun.
  - destruct ms' as [|m' ms']; [|done]. simpl in *. injection Hrun as <-. by exists c.
  - destruct ms' as [|m' ms']; [done|].
    unfold calm in Hcalm. rewrite !fmap_cons in Hcalm.
    injection Hcalm as Hm Hrest. fold (calm ms) (calm ms') in Hrest.
    destruct Hsame as (Hq & Ha & Hb). simpl in Hrun |- *.
    destruct m as [ev|i|i answer], m' as [ev'|i'|i' answer']; try discriminate Hm.
    + injection Hm as <-. simpl in *.
      destruct (ignored env outputFolder (path ev)).
      * apply (IH ms' d c); [done|by repeat split|done].
      * apply (fun H => IH ms' _ _ Hrest H Hrun).
        split; [|split]; simpl; [by rewrite Hq|done|].
        by rewrite !builder_calls_app, Hb.
    + injection Hm as <-. simpl in *. rewrite <- Hq.
      destruct (queued d !! i) as [ev|]; [|done].
      apply (fun H => IH ms' _ _ Hrest H Hrun).
      split; [|split]; simpl; [by rewrite Hq|by rewrite Ha|].
      by rewrite !builder_calls_app, Hb.
    + injection Hm as <-. simpl in *. rewrite <- Ha.
      destruct (awaiting d !! i) as [[op filePath]|]; [|done].
      apply (fun H => IH ms' _ _ Hrest H Hrun).
      split; [|split]; simpl; [done|by rewrite Ha|].
      by rewrite !builder_calls_app, !builder_calls_settled, Hb.
Qed.

Lemma raised_cons (env : Env) (outputFolder : Path) (m : Move) (ms : list Move) :
  raised env outputFolder (m :: ms)
  = match m with
    | Raise ev =>
        if ignored env outputFolder (path ev) then raised env outputFolder ms
        else ev :: raised env outputFolder ms
    | _ => raised env outputFolder ms
    end.
Proof.
  destruct m as [ev| |]; try reflexivity.
  unfold raised. simpl. by destruct (ignored env outputFolder (path ev)).
Qed.

Lemma rejections_cons (m : Move) (ms : list Move) :
  rejections (m :: ms)
  = match m with
    | Settle _ (Rejected e) => e :: rejections ms
    | _ => rejections ms
    end.
Proof. by destruct m as [| |i [|e]]. Qed.

(** What a schedule adds to the counts of a dispatcher. *)
Lemma run_moves_counts (env : Env) (outputFolder : Path) (ms : list Move)
      (d d' : Dispatcher) :
  run_moves env outputFolder ms d = Some d' ->
  count_effects is_unhandled (shown d') = count_effects is_unhandled (shown d) /\
  count_effects is_info (shown d')
    = count_effects is_info (shown d) + length (raised env outputFolder ms) /\
  count_effects is_logged_error (shown d')
    = count_effects is_logged_error (shown d) + length (rejections ms) /\
  count_effects is_failed_call (shown d')
    = count_effects is_failed_call (shown d) + length (rejections ms) /\
  length (awaiting d') + count_effects is_ended_call (shown d')
    + length (builder_calls (shown d))
    = length (awaiting d) + count_effects is_ended_call (shown d)
      + length (builder_calls (shown d')).
Proof.
  revert d. induction ms as [|m ms IH]; intros d Hrun; simpl in Hrun.
  - injection Hrun as <-. simpl. lia.
  - rewrite raised_cons, rejections_cons.
    destruct m as [ev|i|i answer]; simpl in Hrun.
    + destruct (ignored env outputFolder (path ev)); [by apply IH|].
      destruct (IH _ Hrun) as (H1 & H2 & H3 & H4 & H5).
      cbn [shown queued awaiting] in *.
      rewrite !count_effects_app, builder_calls_app, length_app in *.
      change (count_effects is_unhandled [LogInfo (reload_message (kind ev) (path ev))])
        with 0 in *.
      change (count_effects is_info [LogInfo (reload_message (kind ev) (path ev))])
        with 1 in *.
      change (count_effects is_logged_error [LogInfo (reload_message (kind ev) (path ev))])
        with 0 in *.
      change (count_effects is_failed_call [LogInfo (reload_message (kind ev) (path ev))])
        with 0 in *.
      change (count_effects is_ended_call [LogInfo (reload_message (kind ev) (path ev))])
        with 0 in *.
      change (length (builder_calls [LogInfo (reload_message (kind ev) (path ev))]))
        with 0 in *.
      cbn [length]. lia.
    + destruct (queued d !! i) as [ev|]; [|done].
      destruct (IH _ Hrun) as (H1 & H2 & H3 & H4 & H5).
      cbn [shown queued awaiting] in *.
      rewrite !count_effects_app, builder_calls_app, !length_app in *.
      set (t := [Classify (path ev);
                 Began (CBuilder (deferred_call env (kind ev) (path ev)) (path ev))]) in *.
      change (count_effects is_unhandled t) with 0 in *.
      change (count_effects is_info t) with 0 in *.
      change (count_effects is_logged_error t) with 0 in *.
      change (count_effects is_failed_call t) with 0 in *.
      change (count_effects is_ended_call t) with 0 in *.
      change (length (builder_calls t)) with 1 in *.
      cbn [length] in *. lia.
    + destruct (awaiting d !! i) as [[op filePath]|] eqn:Hlook; [|done].
      destruct (IH _ Hrun) as (H1 & H2 & H3 & H4 & H5).
      cbn [shown queued awaiting] in *.
      pose proof (length_delete (awaiting d) i (mk_is_Some _ _ Hlook)) as Hdel.
      pose proof (lookup_lt_Some _ _ _ Hlook) as Hlt.
      rewrite !count_effects_app, builder_calls_app, builder_calls_settled,
        !length_app in *.
      destruct answer as [[]|e];
        change (count_effects is_unhandled (settled op filePath _)) with 0 in *;
        change (count_effects is_info (settled op filePath _)) with 0 in *;
        change (count_effects is_ended_call (settled op filePath _)) with 1 in *;
        [change (count_effects is_logged_error (settled op filePath (Fulfilled tt)))
           with 0 in *;
         change (count_effects is_failed_call (settled op filePath (Fulfilled tt)))
           with 0 in *
        |change (count_effects is_logged_error (settled op filePath (Rejected e)))
           with 1 in *;
         change (count_effects is_failed_call (settled op filePath (Rejected e)))
           with 1 in *];
        cbn [length] in *; lia.
Qed.

(** Every event the watcher did not drop is accounted for once: its builder
    call was begun, or its deferred function is still queued. *)
Lemma run_moves_dispatches (env : Env) (outputFolder : Path) (ms : list Move)
      (d d' : Dispatcher) :
  run_moves env outputFolder ms d = Some d' ->
  builder_calls (shown d')
  ++ ((fun ev => (action_table (kind ev) (isSourceFile env (path ev)), path ev))
        <$> queued d')
  ≡ₚ (builder_calls (shown d)
      ++ ((fun ev => (action_table (kind ev) (isSourceFile env (path ev)), path ev))
            <$> queued d))
     ++ ((fun ev => (action_table (kind ev) (isSourceFile env (path ev)), path ev))
           <$> raised env outputFolder ms).
Proof.
  revert d. induction ms as [|m ms IH]; intros d Hrun; simpl in Hrun.
  - injection Hrun as <-. unfold raised. simpl. by rewrite app_nil_r.
  - rewrite raised_cons.
    destruct m as [ev|i|i answer]; simpl in Hrun.
    + destruct (ignored env outputFolder (path ev)); [by apply IH|].
      rewrite (IH _ Hrun). cbn [shown queued awaiting].
      rewrite builder_calls_app, fmap_app, !fmap_cons, fmap_nil.
      change (builder_calls [LogInfo (reload_message (kind ev) (path ev))]) with
        (@nil (BuilderOp * string)).
      rewrite app_nil_r, <- !app_assoc. done.
    + destruct (queued d !! i) as [ev|] eqn:Hlook; [|done].
      rewrite (IH _ Hrun). cbn [shown queued awaiting].
      rewrite builder_calls_app.
      change (builder_calls [Classify (path ev);
                Began (CBuilder (deferred_call env (kind ev) (path ev)) (path ev))])
        with [(deferred_call env (kind ev) (path ev), path ev)].
      rewrite deferred_call_table.
      apply Permutation_app_tail.
      rewrite (delete_Permutation (queued d) i ev Hlook) at 2.
      rewrite fmap_cons, <- !app_assoc. apply Permutation_app_head.
      done.
    + destruct (awaiting d !! i) as [[op filePath]|]; [|done].
      rewrite (IH _ Hrun). cbn [shown queued awaiting].
      by rewrite builder_calls_app, builder_calls_settled, app_nil_r.
Qed.



(** C8. Whatever the builder answers, the watcher gets through any stream of
    events: no handler throws into it, no rejection is left unhandled, and
    every event that is not ignored gets its own builder call, whether or
    not earlier calls failed. A handler whose builder call fails returns
    normally and logs the message of the error after the failed call. The
    same holds when the deferred functions run and the builder calls settle
    in any order between the events: every rejection is logged once and
    none is left unhandled, every event that was not dropped has its call
    begun or its deferred function still queued, and which calls are begun,
    queued or awaited does not depend on the answers other calls got. *)
Theorem watch_failure_isolated_C8 (env : Env) (outputFolder : Path)
        (evs : list WatchEvent) (w : World) :
  run (watch_events env outputFolder evs) w = Fulfilled tt /\
  Forall (fun x => is_unhandled x = false)
         (new_effects (watch_events env outputFolder evs) w) /\
  builder_calls (new_effects (watch_events env outputFolder evs) w)
    = (fun ev => (action_table (kind ev) (isSourceFile env (path ev)), path ev))
        <$> filter (fun ev => ignored env outputFolder (path ev) = false) evs /\
  (forall (k : EventKind) (filePath : string) (w' : World) (e : Error),
      builder env (trace w' ++ [LogInfo (reload_message k filePath); Classify filePath])
              (action_table k (isSourceFile env filePath)) filePath
        = Rejected e ->
      run (handler env k filePath) w' = Fulfilled tt /\
      new_effects (handler env k filePath) w'
        = [LogInfo (reload_message k filePath);
           Classify filePath;
           Began (CBuilder (action_table k (isSourceFile env filePath)) filePath);
           Ended (CBuilder (action_table k (isSourceFile env filePath)) filePath) false;
           LogError (message e)]) /\
  (forall (k : EventKind) (filePath : string) (w' : World),
      ignored env outputFolder filePath = false ->
      run_moves env outputFolder
        [Raise (mkEvent k filePath); RunCallback 0;
         Settle 0 (builder env (trace w' ++ [LogInfo (reload_message k filePath);
                                             Classify filePath])
                           (deferred_call env k filePath) filePath)]
        (mkDispatcher (trace w') [] [])
      = Some (mkDispatcher (effects (handler env k filePath) w') [] [])) /\
  (forall (ms : list Move) (d : Dispatcher),
      run_moves env outputFolder ms idle = Some d ->
      count_effects is_unhandled (shown d) = 0 /\
      count_effects is_logged_error (shown d) = length (rejections ms) /\
      count_effects is_failed_call (shown d) = length (rejections ms) /\
      builder_calls (shown d)
      ++ ((fun ev => (action_table (kind ev) (isSourceFile env (path ev)), path ev))
            <$> queued d)
      ≡ₚ (fun ev => (action_table (kind ev) (isSourceFile env (path ev)), path ev))
           <$> raised env outputFolder ms) /\
  (forall (ms ms' : list Move) (d : Dispatcher),
      calm ms = calm ms' ->
      run_moves env outputFolder ms idle = Some d ->
      exists d' : Dispatcher,
        run_moves env outputFolder ms' idle = Some d' /\
        queued d' = queued d /\ awaiting d' = awaiting d /\
        builder_calls (shown d') = builder_calls (shown d)).
Proof.
  rewrite new_effects_watch_events.
  split; [|split; [|split; [|split; [|split; [|split]]]]].
  - unfold run. by rewrite watch_events_spec.
  - apply stream_delta_handled.
  - apply stream_delta_calls.
  - intros k filePath w' e Hfail. rewrite new_effects_handler.
    unfold run. rewrite handler_spec. split; [done|].
    unfold handler_delta. by rewrite Hfail.
  - intros k filePath w' Hnot. by apply moves_of_handler.
  - intros ms d Hrun.
    destruct (run_moves_counts _ _ _ _ _ Hrun) as (H1 & _ & H3 & H4 & _).
    pose proof (run_moves_dispatches _ _ _ _ _ Hrun) as Hperm.
    simpl in *. by repeat split.
  - intros ms ms' d Hcalm Hrun.
    destruct (run_moves_answers env outputFolder ms ms' idle idle d Hcalm) as
      (d' & Hrun' & Hq & Ha & Hb); [by repeat split|done|].
    exists d'. by repeat split.
Qed.

(** C8, on a change of a source file whose rebuild fails, and on two events
    whose work interleaves, the first builder call failing last. *)
Lemma watch_failure_isolated_C8_witness :
  (run (handler failing_build_env change "/home/site/broken.md") initial = Fulfilled tt /\
   new_effects (handler failing_build_env change "/home/site/broken.md") initial
     = [LogInfo "Reload for file change: /home/site/broken.md";
        Classify "/home/site/broken.md";
        Began (CBuilder rebuildAffectedSourceFiles "/home/site/broken.md");
        Ended (CBuilder rebuildAffectedSourceFiles "/home/site/broken.md") false;
        LogError "partial write"]) /\
  exists d' : Dispatcher,
    run_moves sample_env ["home"; "site"; "_site"]
      [Raise (mkEvent change "/home/site/a.md"); Raise (mkEvent add "/home/site/b.png");
       RunCallback 0; RunCallback 0;
       Settle 1 (Fulfilled tt); Settle 0 (Fulfilled tt)] idle = Some d' /\
    builder_calls (shown d')
    = [(rebuildAffectedSourceFiles, "/home/site/a.md"); (buildAsset, "/home/site/b.png")].
Proof.
  destruct (watch_failure_isolated_C8 failing_build_env ["home"; "site"; "_site"]
              [] initial) as (_ & _ & _ & Hfail & _).
  split.
  - apply (Hfail change "/home/site/broken.md" initial (mkError "Error" "partial write")).
    reflexivity.
  - destruct (watch_failure_isolated_C8 sample_env ["home"; "site"; "_site"]
                [] initial) as (_ & _ & _ & _ & _ & _ & Hsame).
    destruct (Hsame
      [Raise (mkEvent change "/home/site/a.md"); Raise (mkEvent add "/home/site/b.png");
       RunCallback 0; RunCallback 0;
       Settle 1 (Fulfilled tt); Settle 0 (Rejected (mkError "Error" "partial write"))]
      [Raise (mkEvent change "/home/site/a.md"); Raise (mkEvent add "/home/site/b.png");
       RunCallback 0; RunCallback 0;
       Settle 1 (Fulfilled tt); Settle 0 (Fulfilled tt)]
      (mkDispatcher
         [LogInfo "Reload for file change: /home/site/a.md";
          LogInfo "Reload for file add: /home/site/b.png";
          Classify "/home/site/a.md";
          Began (CBuilder rebuildAffectedSourceFiles "/home/site/a.md");
          Classify "/home/site/b.png";
          Began (CBuilder buildAsset "/home/site/b.png");
          Ended (CBuilder buildAsset "/home/site/b.png") true;
          Ended (CBuilder rebuildAffectedSourceFiles "/home/site/a.md") false;
          LogError "partial write"] [] []))
      as (d' & Hrun & _ & _ & Hcalls); [reflexivity|reflexivity|].
    exists d'. split; [exact Hrun|exact Hcalls].
Defined.




(** * Further properties of the file *)

(** ** VariableStore, continued *)

Lemma foldl_js_set_union (children : list Element) (vars : gmap string string) :
  foldl (fun vars el => js_set vars (property_key (attr_id el)) (html el)) vars children
  = parseVariables children ∪ vars.
Proof.
  induction children as [|el children IH] using rev_ind.
  - simpl. unfold parseVariables. simpl. by rewrite (left_id_L ∅ (∪)).
  - rewrite foldl_app, parseVariables_snoc. simpl. rewrite IH.
    unfold js_set. destruct (decide (property_key (attr_id el) = "__proto__")); [done|].
    by rewrite insert_union_l.
Qed.

Lemma size_list_to_set_le (l : list string) :
  size (list_to_set l : gset string) <= length l.
Proof.
  induction l as [|x l IH].
  - change (size (∅ : gset string) <= 0). by rewrite size_empty.
  - change (size ({[x]} ∪ (list_to_set l : gset string)) <= S (length l)).
    rewrite size_union_alt, size_singleton.
    pose proof (subseteq_size (list_to_set l ∖ {[x]}) (list_to_set l : gset string)) as Hle.
    assert (list_to_set l ∖ {[x]} ⊆ (list_to_set l : gset string)) as Hsub
      by (intros y Hy; by apply elem_of_difference in Hy as [? _]).
    specialize (Hle Hsub). lia.
Qed.

(** X1. Declarations compose by overriding: the map of a sequence of
    elements followed by another is the map of the second laid over the map
    of the first, so a name set by the later elements has their value and
    every other name keeps the value the earlier elements gave it. *)
Theorem parse_append_overrides (earlier later : list Element) :
  parseVariables (earlier ++ later) = parseVariables later ∪ parseVariables earlier /\
  (forall (k v : string),
      parseVariables later !! k = Some v ->
      parseVariables (earlier ++ later) !! k = Some v) /\
  (forall k : string,
      parseVariables later !! k = None ->
      parseVariables (earlier ++ later) !! k = parseVariables earlier !! k).
Proof.
  assert (parseVariables (earlier ++ later)
          = parseVariables later ∪ parseVariables earlier) as Happ.
  { unfold parseVariables at 1. rewrite foldl_app. apply foldl_js_set_union. }
  split; [done|]. rewrite Happ. split.
  - intros k v Hk. by apply lookup_union_Some_l.
  - intros k Hk. by apply lookup_union_r.
Qed.

(** X1, on a later declaration of [year]. *)
Lemma parse_append_overrides_witness :
  parseVariables ([mkElement (Some "year") "2017"; mkElement (Some "author") "me"]
                  ++ [mkElement (Some "year") "2018"]) !! "year" = Some "2018".
Proof.
  destruct (parse_append_overrides
              [mkElement (Some "year") "2017"; mkElement (Some "author") "me"]
              [mkElement (Some "year") "2018"]) as (_ & Hlater & _).
  apply Hlater. reflexivity.
Defined.

(** X2. For every variables file, with or without ids on its elements, the
    keys of the prepared map are the property names the loop assigned, less
    [__proto__], together with [baseUrl]; the map is never empty and has at
    most one entry per top-level element plus one. *)
Theorem variables_keys_and_size (env : Env) (content : string) :
  dom (userDefinedVariables env content)
    = (assigned_keys (cheerio_children env content) ∖ {["__proto__"]}) ∪ {["baseUrl"]} /\
  1 <= size (userDefinedVariables env content) /\
  size (userDefinedVariables env content) <= length (cheerio_children env content) + 1.
Proof.
  assert (dom (userDefinedVariables env content)
    = (assigned_keys (cheerio_children env content) ∖ {["__proto__"]}) ∪ {["baseUrl"]})
    as Hdom.
  { unfold userDefinedVariables. by rewrite injectBaseUrl_dom, parseVariables_dom. }
  split; [done|]. rewrite <- !size_dom, Hdom. split.
  - pose proof (subseteq_size ({["baseUrl"]} : gset string)
      ((assigned_keys (cheerio_children env content) ∖ {["__proto__"]}) ∪ {["baseUrl"]}))
      as Hle.
    rewrite size_singleton in Hle. apply Hle. apply union_subseteq_r.
  - rewrite size_union_alt.
    pose proof (subseteq_size
      (assigned_keys (cheerio_children env content) ∖ {["__proto__"]})
      (assigned_keys (cheerio_children env content))) as Hkeys.
    pose proof (subseteq_size
      (({["baseUrl"]} : gset string)
         ∖ (assigned_keys (cheerio_children env content) ∖ {["__proto__"]}))
      {["baseUrl"]}) as Hbase.
    rewrite size_singleton in Hbase.
    pose proof (size_list_to_set_le
      ((fun el => property_key (attr_id el)) <$> cheerio_children env content)) as Hlen.
    rewrite length_fmap in Hlen. fold (assigned_keys (cheerio_children env content)) in Hlen.
    assert (assigned_keys (cheerio_children env content) ∖ {["__proto__"]}
            ⊆ assigned_keys (cheerio_children env content)) as H1
      by (intros y Hy; by apply elem_of_difference in Hy as [? _]).
    assert (({["baseUrl"]} : gset string)
              ∖ (assigned_keys (cheerio_children env content) ∖ {["__proto__"]})
            ⊆ {["baseUrl"]}) as H2
      by (intros y Hy; by apply elem_of_difference in Hy as [? _]).
    specialize (Hkeys H1). specialize (Hbase H2). lia.
Qed.

(** X3. An element whose id is [__proto__] is inert: wherever it stands in
    the file, the prepared map is the one of the file without it, and no map
    ever has a [__proto__] entry. *)
Theorem proto_id_inert (before after : list Element) (el : Element) :
  attr_id el = Some "__proto__" ->
  parseVariables (before ++ el :: after) = parseVariables (before ++ after) /\
  injectBaseUrl (parseVariables (before ++ el :: after)) !! "__proto__" = None.
Proof.
  intros Hid. split.
  - unfold parseVariables. rewrite !foldl_app. simpl.
    rewrite Hid. simpl. unfold js_set at 2.
    by destruct (decide ("__proto__" = "__proto__")).
  - rewrite injectBaseUrl_lookup.
    destruct (decide ("__proto__" = "baseUrl")); [done|].
    apply parseVariables_proto.
Qed.

(** X3, on a file with one such element between two declarations. *)
Lemma proto_id_inert_witness :
  parseVariables [mkElement (Some "a") "1"; mkElement (Some "__proto__") "x";
                  mkElement (Some "b") "2"]
  = parseVariables [mkElement (Some "a") "1"; mkElement (Some "b") "2"].
Proof.
  destruct (proto_id_inert [mkElement (Some "a") "1"] [mkElement (Some "b") "2"]
              (mkElement (Some "__proto__") "x")) as [Hsame _].
  - reflexivity.
  - exact Hsame.
Defined.

(** X4. The load step always reads exactly the variables file of the root it
    is given; it hands on the file's text unchanged when the read succeeds,
    and it logs a warning exactly when the read failed, with the message of
    that failure. *)
Theorem load_reads_and_warns (env : Env) (rootPath : Path) (w : World) :
  (forall file : Path,
      FsRead file ∈ new_effects (loadVariablesContent env rootPath) w <->
      file = rootPath ++ ["_markbind"; "variables.md"]) /\
  (forall text : string,
      readFileSync env (rootPath ++ ["_markbind"; "variables.md"]) = Fulfilled text ->
      run (loadVariablesContent env rootPath) w = Fulfilled text) /\
  (forall msg : string,
      LogWarn msg ∈ new_effects (loadVariablesContent env rootPath) w <->
      exists e : Error,
        readFileSync env (rootPath ++ ["_markbind"; "variables.md"]) = Rejected e /\
        msg = message e).
Proof.
  unfold new_effects, loadVariablesContent, path_join, USER_VARIABLES_PATH.
  unfold_M. simpl.
  destruct (readFileSync env _) as [text|e] eqn:Hread; simpl;
    rewrite <- ?app_assoc, drop_app_length.
  - split; [|split].
    + intros file. rewrite list_elem_of_singleton. split; congruence.
    + by intros ? [= <-].
    + intros msg. rewrite list_elem_of_singleton. split; [done|by intros (? & ? & _)].
  - split; [|split].
    + intros file. simpl. rewrite !elem_of_cons, elem_of_nil.
      split; [intros [?|[?|[]]]; congruence|intros ->; by left].
    + done.
    + intros msg. simpl. rewrite !elem_of_cons, elem_of_nil. split.
      * intros [?|[[= ->]|[]]]; [done|]. by exists e.
      * intros (e' & [= <-] & ->). right. by left.
Qed.

(** X4, on the sample project. *)
Lemma load_reads_and_warns_witness :
  run (loadVariablesContent sample_env ["home"; "site"]) initial
  = Fulfilled "<span id='year'>2017</span> ...".
Proof.
  destruct (load_reads_and_warns sample_env ["home"; "site"] initial)
    as (_ & Htext & _).
  apply Htext. reflexivity.
Defined.

(** ** The one-shot commands, continued *)

Lemma include_resolved (env : Env) (file : string) (output : option string)
      (siteConfigPath : Path) (w : World) :
  findUp_sync env SITE_CONFIG_NAME = Some siteConfigPath ->
  include env file output w
  = (emit (FsRead (path_join (removelast siteConfigPath) USER_VARIABLES_PATH));;
     match readFileSync env (path_join (removelast siteConfigPath) USER_VARIABLES_PATH) with
     | Fulfilled _ => ret tt
     | Rejected e => emit (LogWarn (message e))
     end;;
     detach
       (catch
          (then_ (await (CIncludeFile (path_resolve env file)
                           (include_config env (removelast siteConfigPath)))
                        (includeFile env (path_resolve env file)
                           (include_config env (removelast siteConfigPath))))
                 (fun result => writeResult env output result))
          (fun error =>
             emit Logo;;
             emit (LogError "Error processing fragment include:");;
             emit (LogError (message error))))) w.
Proof.
  intros Hfind. unfold include, include_config, variables_content.
  rewrite Hfind. unfold loadVariablesContent. unfold_M. simpl.
  by destruct (readFileSync env _).
Qed.

Lemma findUp_from_nearest (exists_ : Path -> bool) (name : string)
      (rdir : list string) (dir : Path) :
  findUp_from exists_ name rdir = Some (dir ++ [name]) ->
  forall deeper : Path,
    deeper `prefix_of` rev rdir -> length dir < length deeper ->
    exists_ (deeper ++ [name]) = false.
Proof.
  induction rdir as [|seg parent IH]; simpl; intros Hfound deeper Hdeeper Hlen.
  - destruct Hdeeper as [k Hk]. symmetry in Hk.
    apply app_eq_nil in Hk as [-> _]. simpl in Hlen. lia.
  - destruct (exists_ ((rev parent ++ [seg]) ++ [name])) eqn:Hhere.
    + injection Hfound as Hfound. apply app_inj_tail in Hfound as [<- _].
      apply prefix_length in Hdeeper. lia.
    + destruct Hdeeper as [k Hk].
      destruct k as [|y k _] using rev_ind.
      * rewrite app_nil_r in Hk. by rewrite <- Hk.
      * rewrite app_assoc in Hk. apply app_inj_tail in Hk as [Hk _].
        apply (IH Hfound); [by exists k|done].
Qed.

Lemma findUp_from_complete (exists_ : Path -> bool) (name : string)
      (rdir : list string) (dir : Path) :
  dir `prefix_of` rev rdir -> exists_ (dir ++ [name]) = true ->
  is_Some (findUp_from exists_ name rdir).
Proof.
  induction rdir as [|seg parent IH]; simpl; intros Hdir Hmarker.
  - destruct Hdir as [k Hk]. symmetry in Hk. apply app_eq_nil in Hk as [-> _].
    simpl in Hmarker. by rewrite Hmarker.
  - destruct (exists_ ((rev parent ++ [seg]) ++ [name])) eqn:Hhere; [done|].
    destruct Hdir as [k Hk].
    destruct k as [|y k _] using rev_ind.
    + rewrite app_nil_r in Hk. rewrite <- Hk in Hmarker. congruence.
    + rewrite app_assoc in Hk. apply app_inj_tail in Hk as [Hk _].
      apply IH; [by exists k|done].
Qed.

(** X5. The project root a one-shot command works on is the nearest
    directory, from the working directory upwards, that holds [site.json]:
    a root is found exactly when some ancestor holds the marker, no
    directory between the root and the working directory holds one, and the
    only file [include] reads is [_markbind/variables.md] under that root. *)
Theorem nearest_root (env : Env) (file : string) (output : option string) :
  (is_Some (findUp_sync env SITE_CONFIG_NAME) <->
   exists dir : Path,
     dir `prefix_of` cwd env /\ fs_exists env (dir ++ [SITE_CONFIG_NAME]) = true) /\
  (forall found : Path,
      findUp_sync env SITE_CONFIG_NAME = Some found ->
      found = removelast found ++ [SITE_CONFIG_NAME] /\
      removelast found `prefix_of` cwd env /\
      fs_exists env found = true /\
      (forall deeper : Path,
          deeper `prefix_of` cwd env -> length (removelast found) < length deeper ->
          fs_exists env (deeper ++ [SITE_CONFIG_NAME]) = false) /\
      (forall read : Path,
          FsRead read ∈ effects (include env file output) initial ->
          read = removelast found ++ ["_markbind"; "variables.md"])).
Proof.
  unfold findUp_sync. split.
  - split.
    + intros [found Hfound].
      apply findUp_from_Some in Hfound as (dir & Hdir & -> & Hmarker).
      rewrite rev_involutive in Hdir. by exists dir.
    + intros (dir & Hdir & Hmarker).
      apply (findUp_from_complete _ _ _ dir); [by rewrite rev_involutive|done].
  - intros found Hfound.
    destruct (findUp_from_Some _ _ _ _ Hfound) as (dir & Hdir & -> & Hmarker).
    rewrite rev_involutive in Hdir. rewrite removelast_last.
    split; [done|]. split; [done|]. split; [done|]. split.
    + intros deeper Hdeeper Hlen.
      apply (findUp_from_nearest _ _ _ dir Hfound); [by rewrite rev_involutive|done].
    + intros read Hread. unfold effects in Hread.
      rewrite (include_resolved env file output (dir ++ [SITE_CONFIG_NAME])) in Hread
        by done.
      rewrite removelast_last in Hread.
      unfold_M. unfold path_join, USER_VARIABLES_PATH in *. simpl in Hread.
      destruct (readFileSync env _); simpl in Hread;
        destruct (includeFile env _ _); simpl in Hread;
        destruct (truthy output); simpl in Hread;
        try destruct (outputFileSync env _ _); simpl in Hread;
        split_in Hread; by injection Hread as ->.
Qed.

(** X5, on the sample project, whose root is two levels above a nested
    working directory. *)
Lemma nearest_root_witness :
  removelast ["home"; "site"; "site.json"] `prefix_of` cwd sample_env /\
  fs_exists sample_env ["home"; "site"; "docs"; "site.json"] = false.
Proof.
  destruct (nearest_root sample_env "page.md" None) as [_ Hfound].
  destruct (Hfound ["home"; "site"; "site.json"]) as (_ & Hancestor & _ & Hnearest & _).
  - reflexivity.
  - split; [exact Hancestor|].
    apply (Hnearest ["home"; "site"; "docs"]); [done|]. simpl. lia.
Defined.

(** X6. [include] delivers the engine's result and nothing else, to one
    place. Once the root is resolved and the engine fulfils with a result,
    that result is handed to the write, for the output option resolved
    against the working directory, when the option is set, and printed when
    it is not. Nothing but the engine's result is ever written or printed,
    and the two together happen at most once. *)
Theorem include_delivers_result (env : Env) (file : string) (output : option string) :
  (forall (found : Path) (result : string),
      findUp_sync env SITE_CONFIG_NAME = Some found ->
      includeFile env (path_resolve env file) (include_config env (removelast found))
      = Fulfilled result ->
      match truthy output with
      | Some o =>
          FsOutput (path_resolve env o) result
            ∈ effects (include env file output) initial /\
          count_effects is_output (effects (include env file output) initial) = 1 /\
          count_effects is_printed (effects (include env file output) initial) = 0
      | None =>
          LogPlain result ∈ effects (include env file output) initial /\
          count_effects is_printed (effects (include env file output) initial) = 1 /\
          count_effects is_output (effects (include env file output) initial) = 0
      end) /\
  count_effects is_output (effects (include env file output) initial)
  + count_effects is_printed (effects (include env file output) initial) <= 1 /\
  (forall (target : Path) (data : string),
      FsOutput target data ∈ effects (include env file output) initial ->
      exists (o : string) (found : Path),
        truthy output = Some o /\ target = path_resolve env o /\
        findUp_sync env SITE_CONFIG_NAME = Some found /\
        includeFile env (path_resolve env file) (include_config env (removelast found))
        = Fulfilled data) /\
  (forall data : string,
      LogPlain data ∈ effects (include env file output) initial ->
      exists found : Path,
        truthy output = None /\
        findUp_sync env SITE_CONFIG_NAME = Some found /\
        includeFile env (path_resolve env file) (include_config env (removelast found))
        = Fulfilled data).
Proof.
  destruct (findUp_sync env SITE_CONFIG_NAME) as [found|] eqn:Hfind.
  - unfold effects. rewrite (include_resolved env file output found) by done.
    unfold_M. simpl.
    destruct (readFileSync env _); simpl;
      destruct (includeFile env _ _) as [result|err] eqn:Hengine; simpl;
      destruct (truthy output) as [o|] eqn:Houtput; simpl;
      try destruct (outputFileSync env _ _); simpl;
      (split; [intros found' result' [= <-] Hresult; rewrite Hengine in Hresult;
               first [discriminate Hresult
                     |injection Hresult as <-;
                      split; [rewrite !elem_of_cons; by eauto 10|done]]|]);
      (split; [unfold count_effects; simpl; lia|]);
      (split; [intros target data Hin|intros data Hin]);
      split_in Hin; simplify_eq; eauto 10.
  - unfold effects, include. rewrite Hfind. unfold_M. simpl.
    split; [by intros ? ? [=]|].
    split; [unfold count_effects; simpl; lia|].
    split; [intros target data Hin|intros data Hin]; by apply elem_of_nil in Hin.
Qed.

(** X6, on the sample project with an output option. *)
Lemma include_delivers_result_witness :
  exists o : string,
    Some "out.html" = Some o /\
    ["home"; "site"; "docs"; "out.html"] = path_resolve sample_env o.
Proof.
  destruct (include_delivers_result sample_env "page.md" (Some "out.html"))
    as (_ & _ & Hwritten & _).
  destruct (Hwritten ["home"; "site"; "docs"; "out.html"] "<h1>included</h1>")
    as (o & _ & Houtput & Htarget & _).
  - vm_compute. do 3 apply list_elem_of_further. apply list_elem_of_here.
  - exists o. split; [exact Houtput|exact Htarget].
Defined.

(** X7. Once the root is resolved, [include] returns normally and leaves no
    rejection unhandled; it logs its failure heading exactly when the engine
    rejected or the write of the result failed, and it reports that the
    result was written only when the write succeeded. *)
Theorem include_reports_failures (env : Env) (file : string) (output : option string)
        (found : Path) :
  findUp_sync env SITE_CONFIG_NAME = Some found ->
  run (include env file output) initial = Fulfilled tt /\
  count_effects is_unhandled (effects (include env file output) initial) = 0 /\
  (LogError "Error processing fragment include:"
     ∈ effects (include env file output) initial <->
   (exists e : Error,
       includeFile env (path_resolve env file) (include_config env (removelast found))
       = Rejected e) \/
   (exists (o result : string) (e : Error),
       truthy output = Some o /\
       includeFile env (path_resolve env file) (include_config env (removelast found))
       = Fulfilled result /\
       outputFileSync env (path_resolve env o) result = Rejected e)) /\
  (forall msg : string,
      LogInfo msg ∈ effects (include env file output) initial ->
      exists o result : string,
        truthy output = Some o /\
        msg = "Result was written to " +:+ path_text (path_resolve env o) /\
        includeFile env (path_resolve env file) (include_config env (removelast found))
        = Fulfilled result /\
        outputFileSync env (path_resolve env o) result = Fulfilled tt).
Proof.
  intros Hfind. unfold run, effects.
  rewrite (include_resolved env file output found) by done.
  unfold_M. simpl.
  destruct (readFileSync env _); simpl;
    destruct (includeFile env _ _) as [result|err] eqn:Hengine; simpl;
    destruct (truthy output) as [o|] eqn:Houtput; simpl;
    try destruct (outputFileSync env _ _) as [[]|werr] eqn:Hwrite; simpl;
    (split; [done|]); (split; [done|]);
    (split; [split; [intros Hin; split_in Hin; eauto 10
                    |intros [(? & He)|(o' & r' & ? & Ho & Hr & Hw)]; simplify_eq;
                     try congruence; rewrite ?elem_of_cons; eauto 10]
            |intros msg Hin; split_in Hin; simplify_eq; eauto 10]).
Qed.

(** X7, on a project whose output path cannot be written. *)
Lemma include_reports_failures_witness :
  LogError "Error processing fragment include:"
    ∈ effects (include port_busy_env "page.md" (Some "out.html")) initial.
Proof.
  destruct (include_reports_failures port_busy_env "page.md" (Some "out.html")
              ["home"; "site"; "site.json"]) as (_ & _ & Hheading & _).
  - reflexivity.
  - apply Hheading. right.
    exists "out.html", "<h1>included</h1>", (mkError "Error" "EACCES: permission denied").
    repeat split.
Defined.

Lemma render_resolved (env : Env) (file : string) (output : option string)
      (found : Path) (w : World) :
  findUp_sync env SITE_CONFIG_NAME = Some found ->
  render env file output w
  = detach
      (catch
         (then_ (await (CRenderFile (path_resolve env file)
                          (render_config (removelast found)))
                       (renderFile env (path_resolve env file)
                          (render_config (removelast found))))
                (fun result =>
                   formattedResult ←
                     lift (nunjucks_renderString env (htmlBeautify env result)
                             (path_text (removelast found))
                             (path_text (removelast found)));
                   writeResult env output formattedResult))
         (fun error =>
            emit (LogError "Error processing file rendering:");;
            emit (LogError (message error)))) w.
Proof. intros Hfind. unfold render, render_config. by rewrite Hfind. Qed.

(** X8. Once the root is resolved, what [render] writes or prints is the
    engine's result, formatted and then expanded with both [baseUrl] and
    [hostBaseUrl] set to the root path, delivered to one place at most. It
    returns normally with no rejection unhandled, and logs its failure
    heading exactly when the engine, the expansion or the write failed. *)
Theorem render_delivers_expanded (env : Env) (file : string) (output : option string)
        (found : Path) :
  findUp_sync env SITE_CONFIG_NAME = Some found ->
  run (render env file output) initial = Fulfilled tt /\
  count_effects is_unhandled (effects (render env file output) initial) = 0 /\
  count_effects is_output (effects (render env file output) initial)
  + count_effects is_printed (effects (render env file output) initial) <= 1 /\
  (forall data : string,
      (exists target : Path,
          FsOutput target data ∈ effects (render env file output) initial) \/
      LogPlain data ∈ effects (render env file output) initial ->
      exists result : string,
        renderFile env (path_resolve env file) (render_config (removelast found))
        = Fulfilled result /\
        nunjucks_renderString env (htmlBeautify env result)
          (path_text (removelast found)) (path_text (removelast found))
        = Fulfilled data) /\
  (LogError "Error processing file rendering:"
     ∈ effects (render env file output) initial <->
   (exists e : Error,
       renderFile env (path_resolve env file) (render_config (removelast found))
       = Rejected e) \/
   (exists (result : string) (e : Error),
       renderFile env (path_resolve env file) (render_config (removelast found))
       = Fulfilled result /\
       nunjucks_renderString env (htmlBeautify env result)
         (path_text (removelast found)) (path_text (removelast found))
       = Rejected e) \/
   (exists (o result data : string) (e : Error),
       truthy output = Some o /\
       renderFile env (path_resolve env file) (render_config (removelast found))
       = Fulfilled result /\
       nunjucks_renderString env (htmlBeautify env result)
         (path_text (removelast found)) (path_text (removelast found))
       = Fulfilled data /\
       outputFileSync env (path_resolve env o) data = Rejected e)).
Proof.
  intros Hfind. unfold run, effects.
  rewrite (render_resolved env file output found) by done.
  unfold_M. simpl.
  destruct (renderFile env _ _) as [result|err] eqn:Hengine; simpl;
    [destruct (nunjucks_renderString env _ _ _) as [data|nerr] eqn:Hexpand; simpl;
     [destruct (truthy output) as [o|] eqn:Houtput; simpl;
      [destruct (outputFileSync env _ _) as [[]|werr] eqn:Hwrite; simpl|]|]|];
    (split; [done|]); (split; [done|]);
    (split; [unfold count_effects; simpl; lia|]);
    (split;
     [intros d [[target Hin]|Hin]; split_in Hin; simplify_eq; eauto 10
     |split;
      [intros Hin; split_in Hin; eauto 12
      |intros [(? & He)|[(? & ? & Hr & He)|(? & ? & ? & ? & Ho & Hr & Hd & Hw)]];
       simplify_eq; try congruence; rewrite ?elem_of_cons; eauto 12]]).
Qed.

(** X8, on the sample project. *)
Lemma render_delivers_expanded_witness :
  run (render sample_env "page.md" None) initial = Fulfilled tt /\
  count_effects is_output (effects (render sample_env "page.md" None) initial)
  + count_effects is_printed (effects (render sample_env "page.md" None) initial) <= 1.
Proof.
  destruct (render_delivers_expanded sample_env "page.md" None
              ["home"; "site"; "site.json"]) as (Hrun & _ & Hone & _).
  - reflexivity.
  - split; [exact Hrun|exact Hone].
Defined.

(** ** The [serve] command, continued *)

Lemma precedes_from_seen (a b : Effect -> bool) (t : list Effect) :
  precedes_from true a b t = true.
Proof.
  induction t as [|x t IH]; [done|].
  simpl. by rewrite orb_true_r, IH.
Qed.

(** X9. Whenever [serve] starts the preview server, the configuration it
    hands over serves the [_site] folder of the root, with log level 0, the
    [open] option as given, the port option or 8080 when it is missing or
    empty, and exactly one mount point: the site's base URL, or [/] when the
    site configuration has none or an empty one, paired with that folder.
    The watcher installed before it watches the root, ignores that same
    folder and does not replay the files already there. *)
Theorem serve_server_config (env : Env) (root optPort : option string) (optOpen : bool) :
  (forall cfg : ServerConfig,
      ServerStart cfg ∈ effects (serve env root optPort optOpen) initial ->
      exists config : SiteConfig,
        readSiteConfig env = Fulfilled config /\
        generate env = Fulfilled tt /\
        chokidar_watch env = Fulfilled tt /\
        cfg = mkServerConfig optOpen 0
                (path_resolve env (js_or root (path_text (cwd env))) ++ ["_site"])
                (match optPort with
                 | Some p => if decide (p = "") then PortNumber 8080 else PortOption p
                 | None => PortNumber 8080
                 end)
                [(match baseUrl config with
                  | Some b => if decide (b = "") then "/" else b
                  | None => "/"
                  end,
                  path_resolve env (js_or root (path_text (cwd env))) ++ ["_site"])]) /\
  (forall (watched ignoredFolder : Path) (ignoreInitial : bool),
      WatchInstall watched ignoredFolder ignoreInitial
        ∈ effects (serve env root optPort optOpen) initial ->
      watched = path_resolve env (js_or root (path_text (cwd env))) /\
      ignoredFolder = watched ++ ["_site"] /\
      ignoreInitial = true) /\
  count_effects server_started (effects (serve env root optPort optOpen) initial) <= 1.
Proof.
  unfold serve, path_join. unfold_M. simpl.
  destruct (readSiteConfig env) as [config|e1]; simpl;
    [destruct (generate env) as [[]|e2]; simpl;
     [destruct (chokidar_watch env) as [[]|e3]; simpl;
      [destruct (liveServer_start env) as [[]|e4]; simpl|]|]|];
    (split; [intros cfg Hin; split_in Hin; injection Hin as ->;
             exists config; repeat split;
             unfold truthy, js_or; destruct optPort as [p|]; try done;
             by destruct (decide (p = ""))
            |]);
    (split; [intros watched ignoredFolder ignoreInitial Hin; split_in Hin;
             by injection Hin as -> -> ->
            |unfold count_effects; simpl; lia]).
Qed.

(** X9, on the sample project, whose base URL is [/docs]. *)
Lemma serve_server_config_witness :
  exists config : SiteConfig,
    readSiteConfig sample_env = Fulfilled config /\
    mkServerConfig true 0 ["home"; "site"; "_site"] (PortNumber 8080)
                   [("/docs", ["home"; "site"; "_site"])]
    = mkServerConfig true 0 ["home"; "site"; "_site"] (PortNumber 8080)
                     [(match baseUrl config with
                       | Some b => if decide (b = "") then "/" else b
                       | None => "/"
                       end, ["home"; "site"; "_site"])].
Proof.
  destruct (serve_server_config sample_env (Some "/home/site") None true)
    as (Hconfig & _ & _).
  destruct (Hconfig (mkServerConfig true 0 ["home"; "site"; "_site"] (PortNumber 8080)
                       [("/docs", ["home"; "site"; "_site"])]))
    as (config & Hread & _ & _ & Hcfg).
  - vm_compute. do 6 apply list_elem_of_further. apply list_elem_of_here.
  - exists config. split; [exact Hread|exact Hcfg].
Defined.

(** X10. [serve] returns normally and leaves no rejection unhandled whatever
    its collaborators answer, and logs at most one error. It logs none
    exactly when the configuration was read, the site generated, the watcher
    created and the server started. When creating the watcher throws, the
    server is never started; when starting the server throws, the message is
    the last thing logged and the watcher stays installed. *)
Theorem serve_late_failures (env : Env) (root optPort : option string) (optOpen : bool) :
  run (serve env root optPort optOpen) initial = Fulfilled tt /\
  count_effects is_unhandled (effects (serve env root optPort optOpen) initial) = 0 /\
  count_effects is_logged_error (effects (serve env root optPort optOpen) initial) <= 1 /\
  (count_effects is_logged_error (effects (serve env root optPort optOpen) initial) = 0 <->
   (exists config : SiteConfig, readSiteConfig env = Fulfilled config) /\
   generate env = Fulfilled tt /\
   chokidar_watch env = Fulfilled tt /\
   liveServer_start env = Fulfilled tt) /\
  (forall e : Error,
      chokidar_watch env = Rejected e ->
      count_effects server_started (effects (serve env root optPort optOpen) initial) = 0) /\
  (forall (config : SiteConfig) (e : Error),
      readSiteConfig env = Fulfilled config ->
      generate env = Fulfilled tt ->
      chokidar_watch env = Fulfilled tt ->
      liveServer_start env = Rejected e ->
      last (effects (serve env root optPort optOpen) initial) = Some (LogError (message e)) /\
      count_effects watcher_installed (effects (serve env root optPort optOpen) initial) = 1).
Proof.
  unfold serve. unfold_M. simpl.
  destruct (readSiteConfig env) as [config|e1]; simpl;
    [destruct (generate env) as [[]|e2]; simpl;
     [destruct (chokidar_watch env) as [[]|e3]; simpl;
      [destruct (liveServer_start env) as [[]|e4]; simpl|]|]|];
    (split; [done|]); (split; [done|]);
    (split; [unfold count_effects; simpl; lia|]);
    (split; [unfold count_effects; simpl; split;
             [try discriminate; intros _; eauto 10
             |try done; intros ([c Hc] & Hg & Hw & Hs); discriminate]
            |]);
    (split; [by intros ? ?|]);
    intros c e [= <-] Hg Hw Hs; try discriminate; by injection Hs as <-.
Qed.

(** X10, on a machine where the preview port is taken. *)
Lemma serve_late_failures_witness :
  last (effects (serve port_busy_env None None true) initial)
    = Some (LogError "listen EADDRINUSE :::8080") /\
  count_effects watcher_installed (effects (serve port_busy_env None None true) initial) = 1.
Proof.
  destruct (serve_late_failures port_busy_env None None true)
    as (_ & _ & _ & _ & _ & Hserver).
  apply (Hserver (mkSiteConfig None) (mkError "Error" "listen EADDRINUSE :::8080"));
    reflexivity.
Defined.

(** X11. Over a whole session of [serve] followed by any stream of events,
    nothing is classified or handed to the builder before the full
    generation has completed; and when reading the configuration, the
    generation or the creation of the watcher fails, no event is ever
    dispatched. *)
Theorem session_dispatch_after_generation (env : Env) (root optPort : option string)
        (optOpen : bool) (evs : list WatchEvent) :
  precedes generation_done is_dispatch
           (effects (serve_session env root optPort optOpen evs) initial) /\
  ((exists e : Error,
       readSiteConfig env = Rejected e \/ generate env = Rejected e \/
       chokidar_watch env = Rejected e) ->
   count_effects is_dispatch
     (effects (serve_session env root optPort optOpen evs) initial) = 0).
Proof.
  unfold serve_session, serve, watcher_bound. unfold_M. simpl.
  destruct (readSiteConfig env) as [config|e1]; simpl;
    [destruct (generate env) as [[]|e2]; simpl;
     [destruct (chokidar_watch env) as [[]|e3]; simpl;
      [destruct (liveServer_start env) as [[]|e4]; simpl;
       rewrite watch_events_spec; simpl|]|]|];
    (split;
     [apply precedes_from_sound; simpl; by rewrite ?precedes_from_seen
     |try done; intros [e [H|[H|H]]]; discriminate]).
Qed.

(** X11, on a project whose generation fails. *)
Lemma session_dispatch_after_generation_witness :
  count_effects is_dispatch
    (effects (serve_session failing_build_env None None true
                [mkEvent change "/home/site/index.md"]) initial) = 0.
Proof.
  destruct (session_dispatch_after_generation failing_build_env None None true
              [mkEvent change "/home/site/index.md"]) as [_ Hnone].
  apply Hnone. exists (mkError "Error" "index.md: include not found").
  right. left. reflexivity.
Defined.

(** ** The ignore policy, continued *)

Lemma append_cons (c : ascii) (a b : string) :
  String c a +:+ b = String c (a +:+ b).
Proof. reflexivity. Qed.

Lemma append_snoc (a : string) (c : ascii) (t : string) :
  (a +:+ String c EmptyString) +:+ t = a +:+ String c t.
Proof.
  induction a as [|x a IH]; [done|].
  by rewrite !append_cons, IH.
Qed.

Lemma dotfile_re_from_iff (boundary : bool) (s : string) :
  dotfile_re_from boundary s = true <->
  (boundary = true /\
   exists (d : ascii) (post : string),
     s = String "." (String d post) /\ is_line_terminator d = false) \/
  (exists (pre : string) (c d : ascii) (post : string),
      s = pre +:+ String c (String "." (String d post)) /\
      is_sep c = true /\ is_line_terminator d = false).
Proof.
  revert boundary. induction s as [|c rest IH]; intros boundary; simpl.
  - split; [done|].
    intros [(_ & d & post & Heq & _)|(pre & c & d & post & Heq & _)]; [done|].
    by destruct pre.
  - rewrite orb_true_iff, IH. split.
    + intros [Hhere|[(Hsep & d & post & -> & Hd)|(pre & c' & d & post & -> & Hsep & Hd)]].
      * apply andb_prop in Hhere as [Hbc Hnext].
        apply andb_prop in Hbc as [-> Hc]. apply bool_decide_eq_true in Hc as ->.
        destruct rest as [|d post]; [done|].
        left. split; [done|]. exists d, post. split; [done|].
        by apply negb_true_iff.
      * right. by exists EmptyString, c, d, post.
      * right. by exists (String c pre), c', d, post.
    + intros [(-> & d & post & [= -> ->] & Hd)|(pre & c' & d & post & Heq & Hsep & Hd)].
      * left. simpl. by rewrite Hd.
      * destruct pre as [|x pre]; simpl in Heq; injection Heq as -> ->.
        -- right. left. split; [done|]. by exists d, post.
        -- right. right. by exists pre, c', d, post.
Qed.

Lemma dotfile_re_from_append (boundary : bool) (s t : string) :
  dotfile_re_from boundary s = true -> dotfile_re_from boundary (s +:+ t) = true.
Proof.
  rewrite !dotfile_re_from_iff.
  intros [(Hb & d & post & -> & Hd)|(pre & c & d & post & -> & Hsep & Hd)].
  - left. split; [done|]. by exists d, (post +:+ t).
  - right. exists pre, c, d, (post +:+ t). split; [|done].
    induction pre as [|x pre IH]; [done|].
    by rewrite !append_cons, IH.
Qed.

Lemma stream_delta_all_ignored (env : Env) (outputFolder : Path)
      (evs : list WatchEvent) (h : list Effect) :
  Forall (fun ev => ignored env outputFolder (path ev) = true) evs ->
  stream_delta env outputFolder evs h = [].
Proof.
  intros Hall. revert h. induction Hall as [|ev rest Hev _ IH]; intros h; [done|].
  simpl. rewrite Hev. simpl. by rewrite app_nil_r, IH.
Qed.

(** X12. The dotfile matcher accepts a path exactly when the path holds a
    dot that stands at its very start or right after a slash or a backslash
    and is followed by a character other than a line terminator. *)
Theorem dotfile_re_exact (s : string) :
  dotfile_re s = true <->
  exists (pre : string) (d : ascii) (post : string),
    s = pre +:+ String "." (String d post) /\
    is_line_terminator d = false /\
    (pre = EmptyString \/
     exists (before : string) (c : ascii),
       pre = before +:+ String c EmptyString /\ (c = "/"%char \/ c = "\"%char)).
Proof.
  unfold dotfile_re. rewrite dotfile_re_from_iff. split.
  - intros [(_ & d & post & -> & Hd)|(pre & c & d & post & -> & Hsep & Hd)].
    + exists EmptyString, d, post. split; [done|]. split; [done|]. by left.
    + exists (pre +:+ String c EmptyString), d, post.
      split; [by rewrite append_snoc|]. split; [done|].
      right. exists pre, c. split; [done|].
      unfold is_sep in Hsep. apply orb_prop in Hsep as [Hc|Hc];
        apply bool_decide_eq_true in Hc; [by left|by right].
  - intros (pre & d & post & -> & Hd & [->|(before & c & -> & Hc)]).
    + left. split; [done|]. by exists d, post.
    + right. exists before, c, d, post. split; [by rewrite append_snoc|].
      split; [|done]. unfold is_sep. by destruct Hc as [->| ->].
Qed.

(** X12, on a file inside a [.git] folder. *)
Lemma dotfile_re_exact_witness : dotfile_re "/home/site/.git/config" = true.
Proof.
  destruct (dotfile_re_exact "/home/site/.git/config") as [_ Hmatch].
  apply Hmatch. exists "/home/site/", "g"%char, "it/config".
  split; [reflexivity|]. split; [reflexivity|].
  right. exists "/home/site", "/"%char. split; [reflexivity|by left].
Defined.

(** X13. The dotfile matcher sees the whole path, the part above the project
    included: when the text of the root folder itself matches it, every path
    below the root is ignored and no event in the project is ever
    dispatched. *)
Theorem hidden_root_ignores_all (env : Env) (rootFolder : Path) (evs : list WatchEvent)
        (w : World) :
  dotfile_re (path_text rootFolder) = true ->
  Forall (fun ev => exists rest : string, path ev = path_text rootFolder +:+ rest) evs ->
  (forall rest : string,
      ignored env (path_join rootFolder ["_site"]) (path_text rootFolder +:+ rest) = true) /\
  new_effects (watch_events env (path_join rootFolder ["_site"]) evs) w = [].
Proof.
  intros Hroot Hevs.
  assert (forall rest : string,
    ignored env (path_join rootFolder ["_site"]) (path_text rootFolder +:+ rest) = true)
    as Hignored.
  { intros rest. unfold ignored, dotfile_re.
    rewrite (dotfile_re_from_append true (path_text rootFolder) rest Hroot).
    by rewrite orb_true_r. }
  split; [done|]. rewrite new_effects_watch_events.
  apply stream_delta_all_ignored.
  eapply Forall_impl; [exact Hevs|]. intros ev [rest ->]. apply Hignored.
Qed.

(** X13, on a project kept under [/home/.work]. *)
Lemma hidden_root_ignores_all_witness :
  new_effects (watch_events sample_env ["home"; ".work"; "site"; "_site"]
                 [mkEvent change "/home/.work/site/index.md";
                  mkEvent add "/home/.work/site/logo.png"]) initial = [].
Proof.
  destruct (hidden_root_ignores_all sample_env ["home"; ".work"; "site"]
              [mkEvent change "/home/.work/site/index.md";
               mkEvent add "/home/.work/site/logo.png"] initial) as [_ Hnone].
  - reflexivity.
  - repeat constructor; [by exists "/index.md"|by exists "/logo.png"].
  - exact Hnone.
Defined.

(** ** WatchDispatcher, continued *)

(** X16. The log of the watcher accounts for every event under any schedule
    of deferred functions and settlements: it holds one reload line per
    event that was not dropped, one error line per builder call that
    failed and no other; every builder call begun has ended or is still
    awaited, and the calls begun together with the deferred functions still
    queued are as many as the reload lines. *)
Theorem watch_log_accounting (env : Env) (outputFolder : Path)
        (ms : list Move) (d : Dispatcher) :
  run_moves env outputFolder ms idle = Some d ->
  count_effects is_info (shown d) = length (raised env outputFolder ms) /\
  length (builder_calls (shown d)) + length (queued d)
    = count_effects is_info (shown d) /\
  count_effects is_ended_call (shown d) + length (awaiting d)
    = length (builder_calls (shown d)) /\
  count_effects is_logged_error (shown d) = count_effects is_failed_call (shown d) /\
  count_effects is_failed_call (shown d) = length (rejections ms).
Proof.
  intros Hrun.
  destruct (run_moves_counts _ _ _ _ _ Hrun) as (_ & Hinfo & Herr & Hfail & Hend).
  pose proof (run_moves_dispatches _ _ _ _ _ Hrun) as Hperm.
  apply Permutation_length in Hperm.
  rewrite !length_app, !length_fmap in Hperm.
  simpl in *. unfold count_effects in *. simpl in *. lia.
Qed.

(** X16, on two events whose work interleaves, one call failing. *)
Lemma watch_log_accounting_witness :
  count_effects is_info
    [LogInfo "Reload for file change: /home/site/a.md";
     LogInfo "Reload for file add: /home/site/b.png";
     Classify "/home/site/a.md";
     Began (CBuilder rebuildAffectedSourceFiles "/home/site/a.md");
     Classify "/home/site/b.png";
     Began (CBuilder buildAsset "/home/site/b.png");
     Ended (CBuilder buildAsset "/home/site/b.png") true;
     Ended (CBuilder rebuildAffectedSourceFiles "/home/site/a.md") false;
     LogError "partial write"] = 2.
Proof.
  destruct (watch_log_accounting sample_env ["home"; "site"; "_site"]
    [Raise (mkEvent change "/home/site/a.md"); Raise (mkEvent add "/home/site/b.png");
     Raise (mkEvent add "/home/site/.gitignore");
     RunCallback 0; RunCallback 0;
     Settle 1 (Fulfilled tt); Settle 0 (Rejected (mkError "Error" "partial write"))]
    (mkDispatcher
       [LogInfo "Reload for file change: /home/site/a.md";
        LogInfo "Reload for file add: /home/site/b.png";
        Classify "/home/site/a.md";
        Began (CBuilder rebuildAffectedSourceFiles "/home/site/a.md");
        Classify "/home/site/b.png";
        Began (CBuilder buildAsset "/home/site/b.png");
        Ended (CBuilder buildAsset "/home/site/b.png") true;
        Ended (CBuilder rebuildAffectedSourceFiles "/home/site/a.md") false;
        LogError "partial write"] [] [])) as (Hinfo & _).
  - reflexivity.
  - exact Hinfo.
Defined.

(** ** The commands that only call the site *)

(** X17. [build], [init] and [deploy] return normally whatever the site
    answers and leave no rejection unhandled; each prints the logo first,
    logs its success line exactly when the site call fulfilled, and when the
    call rejected ends its log with the message of the error. *)
Theorem site_commands_report (env : Env) (root output : option string)
        (initSite siteDeploy : Outcome unit) :
  (run (build env root output) initial = Fulfilled tt /\
   count_effects is_unhandled (effects (build env root output) initial) = 0 /\
   head (effects (build env root output) initial) = Some Logo /\
   (LogInfo "Build success!" ∈ effects (build env root output) initial <->
    generate env = Fulfilled tt) /\
   (forall e : Error,
       generate env = Rejected e ->
       last (effects (build env root output) initial) = Some (LogError (message e)))) /\
  (run (init env root initSite) initial = Fulfilled tt /\
   count_effects is_unhandled (effects (init env root initSite) initial) = 0 /\
   head (effects (init env root initSite) initial) = Some Logo /\
   (LogInfo "Initialization success." ∈ effects (init env root initSite) initial <->
    initSite = Fulfilled tt) /\
   (forall e : Error,
       initSite = Rejected e ->
       last (effects (init env root initSite) initial) = Some (LogError (message e)))) /\
  (run (deploy env siteDeploy) initial = Fulfilled tt /\
   count_effects is_unhandled (effects (deploy env siteDeploy) initial) = 0 /\
   head (effects (deploy env siteDeploy) initial) = Some Logo /\
   (LogInfo "Deployed!" ∈ effects (deploy env siteDeploy) initial <->
    siteDeploy = Fulfilled tt) /\
   (forall e : Error,
       siteDeploy = Rejected e ->
       last (effects (deploy env siteDeploy) initial) = Some (LogError (message e)))).
Proof.
  unfold build, init, deploy. unfold_M. simpl.
  destruct (generate env) as [[]|e1], initSite as [[]|e2], siteDeploy as [[]|e3];
    simpl; repeat split; try done;
    try (intros Hin; split_in Hin; fail);
    try (intros _; rewrite !elem_of_cons; by eauto 10);
    try (by intros ? [= <-]).
Qed.

(** X17, on a generation that fails. *)
Lemma site_commands_report_witness :
  last (effects (build failing_build_env None None) initial)
  = Some (LogError "index.md: include not found").
Proof.
  destruct (site_commands_report failing_build_env None None
              (Fulfilled tt) (Fulfilled tt)) as ((_ & _ & _ & _ & Hfail) & _).
  apply (Hfail (mkError "Error" "index.md: include not found")). reflexivity.
Defined.

(** ** The [listening] callback *)

Lemma decimal_reads_back (n : N) :
  N.of_uint <$> NilZero.uint_of_string (decimal n) = Some n.
Proof.
  unfold decimal.
  assert (NilZero.uint_of_string (NilZero.string_of_uint (N.to_uint n))
          = Some (N.to_uint n)) as ->.
  { apply NilZero.usu. destruct n as [|p]; [discriminate|].
    apply DecimalPos.Unsigned.to_uint_nonnil. }
  change (Some (N.of_uint (N.to_uint n)) = Some n).
  by rewrite DecimalN.Unsigned.of_to.
Qed.

(** X18. The address the [listening] callback reports can be opened: its
    host is never the wildcard [0.0.0.0], which is shown as the loopback
    address, while any other bound address is shown as it is; the URL is
    that host after [http://], a colon, and the digits of the bound port,
    which read back as that port. *)
Theorem listening_reports_url (outputFolder : Path) (a : Address) (w : World) :
  serveHost a <> "0.0.0.0" /\
  (address a = "0.0.0.0" -> serveHost a = "127.0.0.1") /\
  (address a <> "0.0.0.0" -> serveHost a = address a) /\
  serveURL a = "http://" +:+ serveHost a +:+ ":" +:+ decimal (address_port a) /\
  N.of_uint <$> NilZero.uint_of_string (decimal (address_port a))
    = Some (address_port a) /\
  new_effects (listening outputFolder a) w
    = [LogInfo ("Serving " +:+ double_quote +:+ path_text outputFolder
                +:+ double_quote +:+ " at " +:+ serveURL a);
       LogInfo "Press CTRL+C to stop ..."].
Proof.
  unfold serveHost. repeat split.
  - destruct (decide (address a = "0.0.0.0")); [done|done].
  - intros Heq. by destruct (decide (address a = "0.0.0.0")).
  - intros Hne. by destruct (decide (address a = "0.0.0.0")).
  - apply decimal_reads_back.
  - unfold new_effects, listening. unfold_M. simpl.
    rewrite <- app_assoc. by rewrite drop_app_length.
Qed.

(** X18, on a server bound to the wildcard address and port 8080. *)
Lemma listening_reports_url_witness :
  serveURL (mkAddress "0.0.0.0" 8080) = "http://127.0.0.1:8080".
Proof.
  destruct (listening_reports_url ["home"; "site"; "_site"]
              (mkAddress "0.0.0.0" 8080) initial) as (_ & Hloop & _ & Hurl & _).
  rewrite Hurl, Hloop; reflexivity.
Defined.
